(** * plan-estudio: the study-plan workflow, embedded and verified

    A shallow embedding of the nodes, the decision functions and the book
    parser of the study-plan generator ([src/state.py], [src/graph.py],
    [src/nodes/*.py], [src/utils/web_search.py]), followed by the properties
    its specification states about them.

    Conventions of the embedding.
    - A Python [str] is a Rocq [string] whose characters are read as the code
      points U+0000..U+00FF; the character classes below ([isspace], [\d],
      [\w], [lower]) are Python's on that range.  The bullet U+2022 that two
      parsers test for lies outside the range and can never occur.
    - A Python [int] is a [Z]; [len] is [Z.of_nat (length _)].  The
      interpreter's limit on the number of digits [int] converts is not
      modelled.
    - A Python [float] read from a decimal numeral is the rational it
      denotes ([Q]); comparison and subtraction are exact.  Only the score,
      which goes through [math.log], is a real number ([R]).
    - [GraphState] is a record with every key present, as
      [initialize_state] builds it, so [state.get(k, default)] reads field
      [k] and no [KeyError] arises.  A node is a function from states to
      states: it mutates the dict it is given and returns it.  The answer
      of the text-completion collaborator is an argument of type
      [option string], [None] standing for a call that raised; every node
      catches that exception, so no node fails.  Printing and the files
      the output nodes save are outside the state and are left out.
    - [books_by_stage] and [book_candidates] are only accessed by key and
      are finite maps; [study_plan_structure] is iterated in insertion order
      and is an association list with the update discipline of a Python
      dict. *)

From Stdlib Require Import String Ascii List ZArith QArith Qreals Reals Lra Lia Bool.
From Stdlib Require Import Permutation Sorted.
From Stdlib Require Import DecimalString DecimalFacts DecimalPos DecimalN DecimalZ.
From stdpp Require Import gmap strings.
Import ListNotations.

(** ** Python string primitives *)

Module PyStr.

Definition code (c : ascii) : N := N_of_ascii c.

Definition in_range (lo hi : N) (c : ascii) : bool :=
  ((lo <=? code c) && (code c <=? hi))%N.

(** [str.isspace] on one character; also the class [\s]. *)
Definition isspace (c : ascii) : bool :=
  in_range 9 13 c || in_range 28 32 c || (code c =? 133)%N || (code c =? 160)%N.

(** The class [\d] ([str.isdecimal]). *)
Definition isdecimal (c : ascii) : bool := in_range 48 57 c.

(** [str.isdigit]: the decimal digits and the superscripts 1, 2, 3. *)
Definition isdigit (c : ascii) : bool :=
  isdecimal c || (code c =? 178)%N || (code c =? 179)%N || (code c =? 185)%N.

(** The class [\w]: alphanumerics and the underscore. *)
Definition isword (c : ascii) : bool :=
  isdecimal c || in_range 65 90 c || (code c =? 95)%N || in_range 97 122 c
  || (code c =? 170)%N || (code c =? 178)%N || (code c =? 179)%N
  || (code c =? 181)%N || (code c =? 185)%N || (code c =? 186)%N
  || in_range 188 190 c || in_range 192 214 c || in_range 216 246 c
  || in_range 248 255 c.

Definition lower_char (c : ascii) : ascii :=
  if in_range 65 90 c || in_range 192 214 c || in_range 216 222 c
  then ascii_of_N (code c + 32) else c.

(** [s.lower()] *)
Fixpoint lower (s : string) : string :=
  match s with
  | EmptyString => EmptyString
  | String c r => String (lower_char c) (lower r)
  end.

(** [s.startswith(p)] *)
Fixpoint startswith (s p : string) {struct p} : bool :=
  match p with
  | EmptyString => true
  | String a p' =>
      match s with
      | EmptyString => false
      | String b s' => Ascii.eqb a b && startswith s' p'
      end
  end.

(** [needle in hay] *)
Fixpoint contains (hay needle : string) : bool :=
  startswith hay needle ||
  match hay with
  | EmptyString => false
  | String _ r => contains r needle
  end.

(** [s.lstrip(chars)], the set of characters given as a predicate. *)
Fixpoint lstrip_chars (p : ascii -> bool) (s : string) : string :=
  match s with
  | EmptyString => EmptyString
  | String c r => if p c then lstrip_chars p r else s
  end.

Definition lstrip : string -> string := lstrip_chars isspace.

Fixpoint rstrip (s : string) : string :=
  match s with
  | EmptyString => EmptyString
  | String c r =>
      match rstrip r with
      | EmptyString => if isspace c then EmptyString else String c EmptyString
      | r' => String c r'
      end
  end.

(** [s.strip()] *)
Definition strip (s : string) : string := rstrip (lstrip s).

(** [s.replace(old, new)] for a non-empty [old] (every call site passes a
    literal): occurrences are found left to right and do not overlap.
    [skip] counts the characters of the current occurrence still to drop. *)
Fixpoint replace_from (skip : nat) (old new s : string) : string :=
  match s with
  | EmptyString => EmptyString
  | String c r =>
      match skip with
      | S k => replace_from k old new r
      | O =>
          if startswith s old
          then new ++ replace_from (String.length old - 1) old new r
          else String c (replace_from 0 old new r)
      end
  end.

Definition replace (s old new : string) : string := replace_from 0 old new s.

(** [s.split(sep)] for a one-character separator: never empty. *)
Fixpoint split (sep : ascii) (s : string) : list string :=
  match s with
  | EmptyString => [EmptyString]
  | String c r =>
      if Ascii.eqb c sep then EmptyString :: split sep r
      else match split sep r with
           | [] => [String c EmptyString]
           | h :: t => String c h :: t
           end
  end.

(** [s.split(sep, 1)]: the text after the first separator, when there is
    one (the second element of the result; the callers test
    [len(parts) > 1] and read [parts[1]]). *)
Fixpoint after_first (sep : ascii) (s : string) : option string :=
  match s with
  | EmptyString => None
  | String c r => if Ascii.eqb c sep then Some r else after_first sep r
  end.

(** [s[:n]] *)
Fixpoint take (n : nat) (s : string) : string :=
  match n, s with
  | S k, String c r => String c (take k r)
  | _, _ => EmptyString
  end.

(** [sep.join(l)] *)
Fixpoint join (sep : string) (l : list string) : string :=
  match l with
  | [] => EmptyString
  | [x] => x
  | x :: r => x ++ sep ++ join sep r
  end.

(** The longest prefix of characters in a class, and what follows it. *)
Fixpoint span (p : ascii -> bool) (s : string) : string * string :=
  match s with
  | EmptyString => (EmptyString, EmptyString)
  | String c r =>
      if p c then let (a, b) := span p r in (String c a, b)
      else (EmptyString, s)
  end.

(** [str(n)] for an integer. *)
Definition str_of_Z (n : Z) : string := NilZero.string_of_int (Z.to_int n).

(** [int(s)] for the texts the regular expressions hand to it: a non-empty
    run of decimal digits.  [None] is the [ValueError] of any other text. *)
Definition int_of_str (s : string) : option Z :=
  match s with
  | EmptyString => None
  | _ => option_map Z.of_uint (NilEmpty.uint_of_string s)
  end.


(** [float(s)] for the texts [\d+\.?\d*] matches: digits, then optionally a
    point and more digits.  The value is exact; [None] is the [ValueError]
    of any other text. *)
Definition float_of_str (s : string) : option Q :=
  let (ip, rest) := span isdecimal s in
  match int_of_str ip with
  | None => None
  | Some i =>
      match rest with
      | EmptyString => Some (inject_Z i)
      | String c fp =>
          if Ascii.eqb c "."%char then
            match fp with
            | EmptyString => Some (inject_Z i)
            | _ =>
                match option_map Z.of_uint (NilEmpty.uint_of_string fp) with
                | Some f =>
                    let k := Z.pow 10 (Z.of_nat (String.length fp)) in
                    Some (Qmake (i * k + f) (Z.to_pos k))
                | None => None
                end
            end
          else None
      end
  end.

End PyStr.

(** ** The shared state ([src/state.py]) *)

Record BookInfo := {
  title : string;
  author : string;
  year : option string;
  rating : Q;
  num_reviews : Z;
  reason : string;
  score : R
}.

Record StageInfo := {
  description : string;
  duration : string;
  prerequisites : list string;
  objectives : list string
}.

(** A Python dict iterated in insertion order: an association list in
    which [od_set] overwrites an existing key in place and appends a new
    one. *)
Definition odict (V : Type) : Type := list (string * V).

Fixpoint od_get {V} (k : string) (d : odict V) : option V :=
  match d with
  | [] => None
  | (k', v) :: r => if String.eqb k k' then Some v else od_get k r
  end.

Fixpoint od_set {V} (k : string) (v : V) (d : odict V) : odict V :=
  match d with
  | [] => [(k, v)]
  | (k', v') :: r =>
      if String.eqb k k' then (k, v) :: r else (k', v') :: od_set k v r
  end.

Definition od_keys {V} (d : odict V) : list string := map fst d.

Record GraphState := {
  topic : string;
  user_level : string;
  knowledge_gaps : list string;
  study_plan_structure : odict StageInfo;
  books_by_stage : gmap string (list BookInfo);
  book_candidates : gmap string (list BookInfo);
  book_search_iterations : Z;
  validation_iterations : Z;
  plan_refinement_iterations : Z;
  quality_threshold : Q;
  stage_being_processed : option string;
  all_stages_covered : bool;
  final_output : string;
  validation_feedback : list string
}.

Definition MAX_BOOK_SEARCHES_PER_STAGE : Z := 3.
Definition MAX_VALIDATION_CYCLES : Z := 5.
Definition MAX_PLAN_REFINEMENTS : Z := 2.
Definition MIN_BOOKS_PER_STAGE : Z := 2.
Definition QUALITY_THRESHOLD : Q := 4.

(** Assignments [state[k] = v], one per key the nodes write. *)
Definition set_user_level (v : string) (s : GraphState) : GraphState :=
  {| topic := topic s; user_level := v; knowledge_gaps := knowledge_gaps s;
     study_plan_structure := study_plan_structure s;
     books_by_stage := books_by_stage s; book_candidates := book_candidates s;
     book_search_iterations := book_search_iterations s;
     validation_iterations := validation_iterations s;
     plan_refinement_iterations := plan_refinement_iterations s;
     quality_threshold := quality_threshold s;
     stage_being_processed := stage_being_processed s;
     all_stages_covered := all_stages_covered s;
     final_output := final_output s;
     validation_feedback := validation_feedback s |}.

Definition set_knowledge_gaps (v : list string) (s : GraphState) : GraphState :=
  {| topic := topic s; user_level := user_level s; knowledge_gaps := v;
     study_plan_structure := study_plan_structure s;
     books_by_stage := books_by_stage s; book_candidates := book_candidates s;
     book_search_iterations := book_search_iterations s;
     validation_iterations := validation_iterations s;
     plan_refinement_iterations := plan_refinement_iterations s;
     quality_threshold := quality_threshold s;
     stage_being_processed := stage_being_processed s;
     all_stages_covered := all_stages_covered s;
     final_output := final_output s;
     validation_feedback := validation_feedback s |}.

Definition set_study_plan_structure (v : odict StageInfo) (s : GraphState)
  : GraphState :=
  {| topic := topic s; user_level := user_level s;
     knowledge_gaps := knowledge_gaps s; study_plan_structure := v;
     books_by_stage := books_by_stage s; book_candidates := book_candidates s;
     book_search_iterations := book_search_iterations s;
     validation_iterations := validation_iterations s;
     plan_refinement_iterations := plan_refinement_iterations s;
     quality_threshold := quality_threshold s;
     stage_being_processed := stage_being_processed s;
     all_stages_covered := all_stages_covered s;
     final_output := final_output s;
     validation_feedback := validation_feedback s |}.

Definition set_books_by_stage (v : gmap string (list BookInfo)) (s : GraphState)
  : GraphState :=
  {| topic := topic s; user_level := user_level s;
     knowledge_gaps := knowledge_gaps s;
     study_plan_structure := study_plan_structure s;
     books_by_stage := v; book_candidates := book_candidates s;
     book_search_iterations := book_search_iterations s;
     validation_iterations := validation_iterations s;
     plan_refinement_iterations := plan_refinement_iterations s;
     quality_threshold := quality_threshold s;
     stage_being_processed := stage_being_processed s;
     all_stages_covered := all_stages_covered s;
     final_output := final_output s;
     validation_feedback := validation_feedback s |}.

Definition set_book_candidates (v : gmap string (list BookInfo)) (s : GraphState)
  : GraphState :=
  {| topic := topic s; user_level := user_level s;
     knowledge_gaps := knowledge_gaps s;
     study_plan_structure := study_plan_structure s;
     books_by_stage := books_by_stage s; book_candidates := v;
     book_search_iterations := book_search_iterations s;
     validation_iterations := validation_iterations s;
     plan_refinement_iterations := plan_refinement_iterations s;
     quality_threshold := quality_threshold s;
     stage_being_processed := stage_being_processed s;
     all_stages_covered := all_stages_covered s;
     final_output := final_output s;
     validation_feedback := validation_feedback s |}.

Definition set_book_search_iterations (v : Z) (s : GraphState) : GraphState :=
  {| topic := topic s; user_level := user_level s;
     knowledge_gaps := knowledge_gaps s;
     study_plan_structure := study_plan_structure s;
     books_by_stage := books_by_stage s; book_candidates := book_candidates s;
     book_search_iterations := v;
     validation_iterations := validation_iterations s;
     plan_refinement_iterations := plan_refinement_iterations s;
     quality_threshold := quality_threshold s;
     stage_being_processed := stage_being_processed s;
     all_stages_covered := all_stages_covered s;
     final_output := final_output s;
     validation_feedback := validation_feedback s |}.

Definition set_validation_iterations (v : Z) (s : GraphState) : GraphState :=
  {| topic := topic s; user_level := user_level s;
     knowledge_gaps := knowledge_gaps s;
     study_plan_structure := study_plan_structure s;
     books_by_stage := books_by_stage s; book_candidates := book_candidates s;
     book_search_iterations := book_search_iterations s;
     validation_iterations := v;
     plan_refinement_iterations := plan_refinement_iterations s;
     quality_threshold := quality_threshold s;
     stage_being_processed := stage_being_processed s;
     all_stages_covered := all_stages_covered s;
     final_output := final_output s;
     validation_feedback := validation_feedback s |}.

Definition set_plan_refinement_iterations (v : Z) (s : GraphState)
  : GraphState :=
  {| topic := topic s; user_level := user_level s;
     knowledge_gaps := knowledge_gaps s;
     study_plan_structure := study_plan_structure s;
     books_by_stage := books_by_stage s; book_candidates := book_candidates s;
     book_search_iterations := book_search_iterations s;
     validation_iterations := validation_iterations s;
     plan_refinement_iterations := v;
     quality_threshold := quality_threshold s;
     stage_being_processed := stage_being_processed s;
     all_stages_covered := all_stages_covered s;
     final_output := final_output s;
     validation_feedback := validation_feedback s |}.

Definition set_stage_being_processed (v : option string) (s : GraphState)
  : GraphState :=
  {| topic := topic s; user_level := user_level s;
     knowledge_gaps := knowledge_gaps s;
     study_plan_structure := study_plan_structure s;
     books_by_stage := books_by_stage s; book_candidates := book_candidates s;
     book_search_iterations := book_search_iterations s;
     validation_iterations := validation_iterations s;
     plan_refinement_iterations := plan_refinement_iterations s;
     quality_threshold := quality_threshold s;
     stage_being_processed := v;
     all_stages_covered := all_stages_covered s;
     final_output := final_output s;
     validation_feedback := validation_feedback s |}.

Definition set_all_stages_covered (v : bool) (s : GraphState) : GraphState :=
  {| topic := topic s; user_level := user_level s;
     knowledge_gaps := knowledge_gaps s;
     study_plan_structure := study_plan_structure s;
     books_by_stage := books_by_stage s; book_candidates := book_candidates s;
     book_search_iterations := book_search_iterations s;
     validation_iterations := validation_iterations s;
     plan_refinement_iterations := plan_refinement_iterations s;
     quality_threshold := quality_threshold s;
     stage_being_processed := stage_being_processed s;
     all_stages_covered := v;
     final_output := final_output s;
     validation_feedback := validation_feedback s |}.

Definition set_final_output (v : string) (s : GraphState) : GraphState :=
  {| topic := topic s; user_level := user_level s;
     knowledge_gaps := knowledge_gaps s;
     study_plan_structure := study_plan_structure s;
     books_by_stage := books_by_stage s; book_candidates := book_candidates s;
     book_search_iterations := book_search_iterations s;
     validation_iterations := validation_iterations s;
     plan_refinement_iterations := plan_refinement_iterations s;
     quality_threshold := quality_threshold s;
     stage_being_processed := stage_being_processed s;
     all_stages_covered := all_stages_covered s;
     final_output := v;
     validation_feedback := validation_feedback s |}.

Definition set_validation_feedback (v : list string) (s : GraphState)
  : GraphState :=
  {| topic := topic s; user_level := user_level s;
     knowledge_gaps := knowledge_gaps s;
     study_plan_structure := study_plan_structure s;
     books_by_stage := books_by_stage s; book_candidates := book_candidates s;
     book_search_iterations := book_search_iterations s;
     validation_iterations := validation_iterations s;
     plan_refinement_iterations := plan_refinement_iterations s;
     quality_threshold := quality_threshold s;
     stage_being_processed := stage_being_processed s;
     all_stages_covered := all_stages_covered s;
     final_output := final_output s;
     validation_feedback := v |}.

(** [initialize_state] of [src/graph.py]. *)
Definition initialize_state (topic0 user_level0 : string) : GraphState :=
  {| topic := topic0; user_level := user_level0; knowledge_gaps := [];
     study_plan_structure := []; books_by_stage := ∅; book_candidates := ∅;
     book_search_iterations := 0; validation_iterations := 0;
     plan_refinement_iterations := 0; quality_threshold := QUALITY_THRESHOLD;
     stage_being_processed := None; all_stages_covered := false;
     final_output := EmptyString; validation_feedback := [] |}.

(** The truth value of [state.get("stage_being_processed")]: [None] and
    the empty string are both false. *)
Definition truthy_stage (o : option string) : option string :=
  match o with
  | Some (String c r) => Some (String c r)
  | _ => None
  end.

(** The truth value of a Python list. *)
Definition truthy_list {A} (l : list A) : bool :=
  match l with
  | [] => false
  | _ :: _ => true
  end.

(** [len(books_by_stage.get(stage_name, []))] *)
Definition num_books (bbs : gmap string (list BookInfo)) (stage : string) : Z :=
  Z.of_nat (length (default [] (bbs !! stage))).

(** ** Decision functions ([src/nodes/decision_nodes.py]) *)

Inductive BookSearchDecision :=
| reintentar_busqueda
| busqueda_especifica
| aceptar_libros_actuales
| libros_suficientes.

Inductive CoverageDecision := siguiente_etapa | validacion_global.

Inductive ValidationDecision := forzar_salida | replantear | formatear.

(** The test of the comprehension that builds [stage_related_gaps]. *)
Definition stage_related (stage g : string) : bool :=
  PyStr.contains (PyStr.lower g) (PyStr.lower stage)
  || PyStr.contains (PyStr.lower g) "need".

Definition decision_busqueda_libros (state : GraphState) : BookSearchDecision :=
  match truthy_stage (stage_being_processed state) with
  | None => libros_suficientes
  | Some stage =>
      let iterations := book_search_iterations state in
      let books := default [] (books_by_stage state !! stage) in
      let gaps := knowledge_gaps state in
      if (iterations >=? MAX_BOOK_SEARCHES_PER_STAGE)%Z
      then aceptar_libros_actuales
      else if (Z.of_nat (length books) <? MIN_BOOKS_PER_STAGE)%Z
      then reintentar_busqueda
      else
        let stage_related_gaps := List.filter (stage_related stage) gaps in
        if truthy_list stage_related_gaps
           && (iterations <? MAX_BOOK_SEARCHES_PER_STAGE - 1)%Z
        then busqueda_especifica
        else libros_suficientes
  end.

(** The stages of the plan with fewer than [MIN_BOOKS_PER_STAGE] books, in
    plan order (the lists [uncovered_stages] and [insufficient_stages]). *)
Definition stages_below_minimum (state : GraphState) : list string :=
  List.filter
    (fun stage_name =>
       (num_books (books_by_stage state) stage_name <? MIN_BOOKS_PER_STAGE)%Z)
    (od_keys (study_plan_structure state)).

(** The function both returns an outcome and assigns
    [state["all_stages_covered"]]. *)
Definition decision_cobertura_etapas (state : GraphState)
  : GraphState * CoverageDecision :=
  let uncovered_stages := stages_below_minimum state in
  if truthy_list uncovered_stages
  then (set_all_stages_covered false state, siguiente_etapa)
  else (set_all_stages_covered true state, validacion_global).

(** [l[-n:]] *)
Definition last_n {A} (n : nat) (l : list A) : list A :=
  skipn (length l - n) l.

Definition critical_words : list string :=
  ["critical"; "major issue"; "low quality"]%string.

(** [any(word in fb.lower() for word in [...])] *)
Definition mentions_critical (fb : string) : bool :=
  existsb (fun word => PyStr.contains (PyStr.lower fb) word) critical_words.

Definition decision_validacion (state : GraphState) : ValidationDecision :=
  let validation_iterations := validation_iterations state in
  let refinement_iterations := plan_refinement_iterations state in
  let feedback := validation_feedback state in
  if (validation_iterations >=? MAX_VALIDATION_CYCLES)%Z then forzar_salida
  else
    let recent_feedback := last_n 3 feedback in
    let critical_issues := existsb mentions_critical recent_feedback in
    if critical_issues && (refinement_iterations <? MAX_PLAN_REFINEMENTS)%Z
    then replantear
    else
      let insufficient_stages := stages_below_minimum state in
      if truthy_list insufficient_stages
         && (refinement_iterations <? MAX_PLAN_REFINEMENTS)%Z
      then replantear
      else formatear.

(** [should_continue_or_end]: defined in the source, used by no edge. *)
Definition should_continue_or_end (state : GraphState) : bool :=
  match final_output state with
  | EmptyString => false
  | _ => true
  end.

(** ** The book parser and the quality test ([src/utils/web_search.py]) *)

(** A book dict as the parser builds it: every key may be missing, and
    ['year'] may be present with the value [None]. *)
Record RawBook := {
  rb_title : option string;
  rb_author : option string;
  rb_year : option (option string);
  rb_rating : option Q;
  rb_num_reviews : option Z;
  rb_reason : option string
}.

Definition empty_book : RawBook :=
  {| rb_title := None; rb_author := None; rb_year := None;
     rb_rating := None; rb_num_reviews := None; rb_reason := None |}.

(** [key in book] *)
Definition has_key {A} (o : option A) : bool :=
  match o with
  | Some _ => true
  | None => false
  end.

(** The truth value of a book dict: it has at least one key. *)
Definition rb_truthy (b : RawBook) : bool :=
  has_key (rb_title b) || has_key (rb_author b) || has_key (rb_year b)
  || has_key (rb_rating b) || has_key (rb_num_reviews b)
  || has_key (rb_reason b).

(** ['title' in book] *)
Definition has_title (b : RawBook) : bool := has_key (rb_title b).

Definition with_author (v : string) (b : RawBook) : RawBook :=
  {| rb_title := rb_title b; rb_author := Some v; rb_year := rb_year b;
     rb_rating := rb_rating b; rb_num_reviews := rb_num_reviews b;
     rb_reason := rb_reason b |}.

Definition with_year (v : option string) (b : RawBook) : RawBook :=
  {| rb_title := rb_title b; rb_author := rb_author b; rb_year := Some v;
     rb_rating := rb_rating b; rb_num_reviews := rb_num_reviews b;
     rb_reason := rb_reason b |}.

Definition with_rating (v : Q) (b : RawBook) : RawBook :=
  {| rb_title := rb_title b; rb_author := rb_author b; rb_year := rb_year b;
     rb_rating := Some v; rb_num_reviews := rb_num_reviews b;
     rb_reason := rb_reason b |}.

Definition with_num_reviews (v : Z) (b : RawBook) : RawBook :=
  {| rb_title := rb_title b; rb_author := rb_author b; rb_year := rb_year b;
     rb_rating := rb_rating b; rb_num_reviews := Some v;
     rb_reason := rb_reason b |}.

Definition with_reason (v : string) (b : RawBook) : RawBook :=
  {| rb_title := rb_title b; rb_author := rb_author b; rb_year := rb_year b;
     rb_rating := rb_rating b; rb_num_reviews := rb_num_reviews b;
     rb_reason := Some v |}.

(** A word boundary [\b] between two neighbouring characters; an end of
    the text counts as a non-word character. *)
Definition word_boundary (before after : option ascii) : bool :=
  xorb (from_option PyStr.isword false before)
       (from_option PyStr.isword false after).

Definition head_char (s : string) : option ascii :=
  match s with
  | EmptyString => None
  | String c _ => Some c
  end.

(** Whether [\b(19|20)\d{2}\b] matches at the start of [s], the character
    before it being [prev]. *)
Definition year_at (prev : option ascii) (s : string) : bool :=
  match s with
  | String c1 (String c2 (String c3 (String c4 rest))) =>
      word_boundary prev (Some c1)
      && ((Ascii.eqb c1 "1" && Ascii.eqb c2 "9")
          || (Ascii.eqb c1 "2" && Ascii.eqb c2 "0"))
      && PyStr.isdecimal c3 && PyStr.isdecimal c4
      && word_boundary (Some c4) (head_char rest)
  | _ => false
  end.

(** [re.search] for [\b(19|20)\d{2}\b]: the leftmost match, as
    [group(0)]. *)
Fixpoint year_search_from (prev : option ascii) (s : string) : option string :=
  match s with
  | EmptyString => None
  | String c r =>
      if year_at prev s then Some (PyStr.take 4 s)
      else year_search_from (Some c) r
  end.

Definition year_search (s : string) : option string := year_search_from None s.

(** What the group [\d+\.?\d*] matches at a position that holds a digit: the run
    of digits and, when a point follows, the point and the digits after
    it.  Every part after the first digit is optional, so the greedy match
    never backtracks. *)
Definition number_at (s : string) : string :=
  let (d1, rest) := PyStr.span PyStr.isdecimal s in
  match rest with
  | String c r =>
      if Ascii.eqb c "."
      then d1 ++ String c (fst (PyStr.span PyStr.isdecimal r))
      else d1
  | EmptyString => d1
  end.

(** [re.search] for the group [\d+\.?\d*], as [group(1)]. *)
Fixpoint number_search (s : string) : option string :=
  match s with
  | EmptyString => None
  | String c r =>
      if PyStr.isdecimal c then Some (number_at s) else number_search r
  end.

(** [re.search] for the group [\d+], as [group(1)]. *)
Fixpoint digits_search (s : string) : option string :=
  match s with
  | EmptyString => None
  | String c r =>
      if PyStr.isdecimal c then Some (fst (PyStr.span PyStr.isdecimal s))
      else digits_search r
  end.

(** The value stored by the [Rating:] branch. *)
Definition parse_rating (rating_text : string) : Q :=
  match number_search rating_text with
  | Some g => default 0%Q (PyStr.float_of_str g)
  | None => 0%Q
  end.

(** The value stored by the [Reviews:] branch. *)
Definition parse_reviews (reviews_text : string) : Z :=
  match digits_search (PyStr.replace reviews_text "," "") with
  | Some g => default 0%Z (PyStr.int_of_str g)
  | None => 0%Z
  end.

(** The text that follows a field marker: [line.replace(marker, '').strip()]. *)
Definition field_text (line marker : string) : string :=
  PyStr.strip (PyStr.replace line marker "").

(** [books.append(current_book)], guarded by ['title' in current_book]. *)
Definition flush (books : list RawBook) (current_book : RawBook) : list RawBook :=
  if has_title current_book then books ++ [current_book] else books.

(** One iteration of the first loop of [parse_books_from_text], over the
    pair [(books, current_book)]. *)
Definition structured_step (acc : list RawBook * RawBook) (raw_line : string)
  : list RawBook * RawBook :=
  let (books, current_book) := acc in
  let line := PyStr.strip raw_line in
  if PyStr.startswith line "Title:" then
    ((if rb_truthy current_book then flush books current_book else books),
     {| rb_title := Some (field_text line "Title:"); rb_author := None;
        rb_year := None; rb_rating := None; rb_num_reviews := None;
        rb_reason := None |})
  else if PyStr.startswith line "Author:" && rb_truthy current_book then
    (books, with_author (field_text line "Author:") current_book)
  else if PyStr.startswith line "Year:" && rb_truthy current_book then
    (books, with_year (year_search (field_text line "Year:")) current_book)
  else if PyStr.startswith line "Rating:" && rb_truthy current_book then
    (books, with_rating (parse_rating (field_text line "Rating:")) current_book)
  else if PyStr.startswith line "Reviews:" && rb_truthy current_book then
    (books,
     with_num_reviews (parse_reviews (field_text line "Reviews:")) current_book)
  else if PyStr.startswith line "Why:" && rb_truthy current_book then
    (books, with_reason (field_text line "Why:") current_book)
  else if String.eqb line "---" && rb_truthy current_book then
    (flush books current_book, empty_book)
  else acc.

(** The first, structured pass, with the flush after the loop. *)
Definition structured_pass (lines : list string) : list RawBook :=
  let (books, current_book) := fold_left structured_step lines ([], empty_book) in
  if rb_truthy current_book then flush books current_book else books.

(** [book.setdefault] for the five optional keys, on books with a title. *)
Definition with_defaults (b : RawBook) : RawBook :=
  if has_title b then
    {| rb_title := rb_title b;
       rb_author := Some (default "Unknown"%string (rb_author b));
       rb_year := Some (default None (rb_year b));
       rb_rating := Some (default 0%Q (rb_rating b));
       rb_num_reviews := Some (default 0%Z (rb_num_reviews b));
       rb_reason :=
         Some (default "Highly recommended resource"%string (rb_reason b)) |}
  else b.

(** [validate_book_quality] *)
Definition validate_book_quality (book : BookInfo) (quality_threshold0 : Q) : bool :=
  Qle_bool quality_threshold0 (rating book).

Section WebSearch.

(** The second, heuristic pass of [parse_books_from_text] (the loop under
    [if len(books) == 0]) is a function of the lines alone.  It is kept
    abstract: it only runs when the structured pass finds no book, and
    every statement below holds whatever books it returns. *)
Variable traditional_pass : list string -> list RawBook.

Definition parse_books_from_text (text : string) : list RawBook :=
  let lines := PyStr.split "010" text in
  let books := structured_pass lines in
  let books :=
    if Nat.eqb (length books) 0 then traditional_pass lines else books in
  map with_defaults books.

(** [search_books_for_topic]: [search_with_gemini] turns a failed call into
    an ["error"] entry, for which the result is the empty list. *)
Definition search_books_for_topic (response : option string) : list RawBook :=
  match response with
  | None => []
  | Some text => parse_books_from_text text
  end.

End WebSearch.

(** ** Analysis nodes ([src/nodes/analysis_nodes.py]) *)

(** A one-character string, for the accented letters of the messages. *)
Definition chr (n : N) : string := String (ascii_of_N n) EmptyString.

Definition newline : ascii := "010"%char.

Definition mentions_gap (line : string) : bool :=
  PyStr.contains (PyStr.lower line) "gap"
  || PyStr.contains (PyStr.lower line) "lack"
  || PyStr.contains (PyStr.lower line) "missing".

Definition analizador_tema (response : option string) (state : GraphState)
  : GraphState :=
  match response with
  | Some analysis_text =>
      let gaps :=
        if PyStr.contains (PyStr.lower analysis_text) "gap"
        then map PyStr.strip
               (List.filter mentions_gap (PyStr.split newline analysis_text))
        else [] in
      let gaps :=
        if truthy_list gaps then gaps
        else ["Complete coverage of " ++ topic state]%string in
      set_validation_feedback
        [("An" ++ chr 225 ++ "lisis inicial: "
            ++ PyStr.take 200 analysis_text ++ "...")%string]
        (set_knowledge_gaps gaps state)
  | None =>
      set_knowledge_gaps
        [("Foundational " ++ topic state)%string;
         ("Intermediate " ++ topic state)%string;
         ("Advanced " ++ topic state)%string]
        state
  end.

Definition valid_levels : list string :=
  ["beginner"; "intermediate"; "advanced"]%string.

Definition advanced_words : list string :=
  ["advanced"; "complex"; "expert"]%string.

Definition evaluador_nivel (state : GraphState) : GraphState :=
  let level := user_level state in
  let level :=
    if String.eqb level "" || negb (existsb (String.eqb level) valid_levels)
    then "beginner"%string else level in
  let state := set_user_level level state in
  if String.eqb level "beginner" then state
  else if String.eqb level "intermediate" then
    set_knowledge_gaps
      (List.filter
         (fun g => negb (PyStr.contains (PyStr.lower g) "foundational"))
         (knowledge_gaps state))
      state
  else
    set_knowledge_gaps
      (List.filter
         (fun g =>
            existsb (fun word => PyStr.contains (PyStr.lower g) word)
                    advanced_words)
         (knowledge_gaps state))
      state.

(** ** Planning nodes ([src/nodes/planning_nodes.py]) *)

Definition mk_stage (d du : string) (p o : list string) : StageInfo :=
  {| description := d; duration := du; prerequisites := p; objectives := o |}.

(** The dict literals of [create_default_stages], built key by key as a
    dict display is. *)
Definition create_default_stages (topic0 level : string) : odict StageInfo :=
  if String.eqb level "beginner" then
    od_set ("Advanced " ++ topic0)%string
      (mk_stage ("Advanced topics and applications in " ++ topic0) "8 weeks"
                ["Intermediate knowledge"%string]
                ["Master advanced concepts"; "Complete projects"]%string)
    (od_set ("Intermediate " ++ topic0)%string
      (mk_stage ("Deeper dive into " ++ topic0 ++ " topics") "6 weeks"
                ["Fundamentals"%string]
                ["Apply concepts"; "Solve intermediate problems"]%string)
    (od_set ("Fundamentals of " ++ topic0)%string
      (mk_stage ("Introduction to basic concepts of " ++ topic0) "4 weeks"
                ["None"%string]
                ["Understand core concepts"; "Build foundation"]%string)
      []))
  else
    od_set ("Advanced " ++ topic0)%string
      (mk_stage "Advanced and specialized topics" "8 weeks"
                ["Core knowledge"%string] ["Expert-level mastery"%string])
    (od_set ("Core " ++ topic0)%string
      (mk_stage ("Essential concepts in " ++ topic0) "6 weeks"
                ["Basic knowledge"%string]
                ["Consolidate understanding"%string])
      []).

Fixpoint drop_str (n : nat) (s : string) : string :=
  match n, s with
  | S k, String _ r => drop_str k r
  | _, _ => s
  end.

(** [stage_pattern.match(line)] for [^(Stage|Phase)\s+([1-7]):\s*(.+)] with
    [re.IGNORECASE], as [group(3)].  The parser calls it on stripped lines
    without a line break: what follows the colon is empty or ends in a
    character that is no space, so [\s*] takes every space and [.+] the
    rest. *)
Definition stage_match (line : string) : option string :=
  let keyword := PyStr.lower (PyStr.take 5 line) in
  if String.eqb keyword "stage" || String.eqb keyword "phase" then
    match PyStr.span PyStr.isspace (drop_str 5 line) with
    | (EmptyString, _) => None
    | (_, String d (String c rest)) =>
        if PyStr.in_range 49 55 d && Ascii.eqb c ":" then
          match snd (PyStr.span PyStr.isspace rest) with
          | EmptyString => None
          | name => Some name
          end
        else None
    | _ => None
    end
  else None.

(** The loop state of [parse_stages_from_text]: the dict [stages], the name
    and the dict of the stage being read (none before the first header) and
    its [objectives]. *)
Record StageScan := {
  sc_stages : odict StageInfo;
  sc_current : option (string * StageInfo);
  sc_objectives : list string
}.

(** [stages[current_stage_name] = current_stage], guarded by
    [current_stage_name and current_stage]. *)
Definition save_stage (sc : StageScan) : odict StageInfo :=
  match sc_current sc with
  | Some (String c r, info) =>
      od_set (String c r)
        (mk_stage (description info) (duration info) (prerequisites info)
                  (sc_objectives sc))
        (sc_stages sc)
  | _ => sc_stages sc
  end.

Definition objective_chars (c : ascii) : bool :=
  Ascii.eqb c "-" || Ascii.eqb c "*" || Ascii.eqb c " "
  || PyStr.isdecimal c || Ascii.eqb c ".".

(** [line.startswith(('-', BULLET, '*')) or line[0].isdigit()] *)
Definition is_listed (line : string) : bool :=
  match line with
  | String c _ => Ascii.eqb c "-" || Ascii.eqb c "*" || PyStr.isdigit c
  | EmptyString => false
  end.

(** The branch [elif current_stage_name:] for a stage with a name. *)
Definition stage_detail (line : string) (info : StageInfo) (objs : list string)
  : StageInfo * list string :=
  let low := PyStr.lower line in
  if PyStr.contains low "duration" || PyStr.contains low "time" then
    match PyStr.after_first ":" line with
    | Some v =>
        (mk_stage (description info) (PyStr.strip v) (prerequisites info)
                  (objectives info), objs)
    | None => (info, objs)
    end
  else if PyStr.contains low "prerequisite" then
    match PyStr.after_first ":" line with
    | Some v =>
        (mk_stage (description info) (duration info)
                  (map PyStr.strip (PyStr.split "," v)) (objectives info), objs)
    | None => (info, objs)
    end
  else if PyStr.contains low "objective" || PyStr.contains low "goal" then
    (info, objs)
  else if is_listed line then
    (info, objs ++ [PyStr.lstrip_chars objective_chars line])
  else if PyStr.contains low "description" then
    match PyStr.after_first ":" line with
    | Some v =>
        (mk_stage (PyStr.strip v) (duration info) (prerequisites info)
                  (objectives info), objs)
    | None => (info, objs)
    end
  else
    match description info with
    | EmptyString =>
        (mk_stage line (duration info) (prerequisites info) (objectives info),
         objs)
    | _ => (info, objs)
    end.

Definition stage_step (sc : StageScan) (raw_line : string) : StageScan :=
  let line := PyStr.strip raw_line in
  match line with
  | EmptyString => sc
  | _ =>
      match stage_match line with
      | Some g3 =>
          {| sc_stages := save_stage sc;
             sc_current :=
               Some (PyStr.strip g3, mk_stage "" "4 weeks" [] []);
             sc_objectives := [] |}
      | None =>
          match sc_current sc with
          | Some (String c r, info) =>
              let (info', objs') := stage_detail line info (sc_objectives sc) in
              {| sc_stages := sc_stages sc;
                 sc_current := Some (String c r, info');
                 sc_objectives := objs' |}
          | _ => sc
          end
      end
  end.

(** The stages read from the text, before the default is considered. *)
Definition scan_stages (text : string) : odict StageInfo :=
  save_stage
    (fold_left stage_step (PyStr.split newline text)
       {| sc_stages := []; sc_current := None; sc_objectives := [] |}).

Definition parse_stages_from_text (text topic0 level : string) : odict StageInfo :=
  let stages := scan_stages text in
  if truthy_list stages then stages else create_default_stages topic0 level.

(** The [try] branch for an answer, the [except] branch for a call that
    raised. *)
Definition estructurador_plan (response : option string) (state : GraphState)
  : GraphState :=
  let topic0 := topic state in
  let level := user_level state in
  match response with
  | Some plan_text =>
      let stages := parse_stages_from_text plan_text topic0 level in
      set_plan_refinement_iterations (plan_refinement_iterations state + 1)
        (set_study_plan_structure stages state)
  | None =>
      let stages := create_default_stages topic0 level in
      set_plan_refinement_iterations 1
        (set_study_plan_structure stages state)
  end.

(** The first stage of the plan that is missing from [books_by_stage] or
    has fewer than two books there. *)
Definition needs_books (bbs : gmap string (list BookInfo)) (stage_name : string)
  : bool :=
  match bbs !! stage_name with
  | None => true
  | Some books => (Z.of_nat (length books) <? 2)%Z
  end.

Definition option_string_eqb (a b : option string) : bool :=
  match a, b with
  | Some x, Some y => String.eqb x y
  | None, None => true
  | _, _ => false
  end.

Definition selector_etapa (state : GraphState) : GraphState :=
  let stages := study_plan_structure state in
  let books_by_stage0 := books_by_stage state in
  let previous_stage := stage_being_processed state in
  let next_stage := List.find (needs_books books_by_stage0) (od_keys stages) in
  match truthy_stage next_stage with
  | Some next =>
      let state :=
        if negb (option_string_eqb (Some next) previous_stage)
        then set_book_search_iterations 0 state
        else state in
      set_stage_being_processed (Some next) state
  | None =>
      set_all_stages_covered true (set_stage_being_processed None state)
  end.

(** The loop of [replanificador] that deletes the books of the stages with
    fewer than two of them. *)
Definition clear_insufficient (stages : list string)
    (bbs : gmap string (list BookInfo)) : gmap string (list BookInfo) :=
  fold_left
    (fun books stage =>
       if (num_books books stage <? 2)%Z then delete stage books else books)
    stages bbs.

Definition replanificador (response : option string) (state : GraphState)
  : GraphState :=
  match response with
  | Some recommendations =>
      let n := (plan_refinement_iterations state + 1)%Z in
      let state := set_plan_refinement_iterations n state in
      let state :=
        set_validation_feedback
          (validation_feedback state ++
             [("Replanificaci" ++ chr 243 ++ "n #" ++ PyStr.str_of_Z n ++ ": "
                 ++ PyStr.take 100 recommendations)%string])
          state in
      let state := set_all_stages_covered false state in
      set_books_by_stage
        (clear_insufficient (od_keys (study_plan_structure state))
           (books_by_stage state))
        state
  | None =>
      set_plan_refinement_iterations (plan_refinement_iterations state + 1) state
  end.

(** ** Book search nodes ([src/nodes/book_search_nodes.py]) *)

(** [rating * math.log(max(num_reviews, 1) + 1)] *)
Definition weighted_score (rating0 : Q) (num_reviews0 : Z) : R :=
  (Q2R rating0 * ln (IZR (Z.max num_reviews0 1 + 1)))%R.

(** The body of the loop over [books_found]: a candidate with a non-empty
    title becomes a [BookInfo]; any other is skipped. *)
Definition to_book_info (book : RawBook) : option BookInfo :=
  match rb_title book with
  | Some (String c r) =>
      let rating0 := default 0%Q (rb_rating book) in
      let num_reviews0 := default 1%Z (rb_num_reviews book) in
      Some {| title := String c r;
              author := default "Unknown"%string (rb_author book);
              year := default None (rb_year book);
              rating := rating0;
              num_reviews := num_reviews0;
              reason := default "Recommended for this topic"%string (rb_reason book);
              score := weighted_score rating0 num_reviews0 |}
  | _ => None
  end.

Definition Qgt_bool (a b : Q) : bool := negb (Qle_bool a b).
Definition Qlt_bool (a b : Q) : bool := negb (Qle_bool b a).

(** The filtering step of [validador_calidad]: the comprehension at the
    threshold and, when too few books pass and the threshold is above 3.5,
    the comprehension at the threshold less 0.3 in its place. *)
Definition quality_filter (threshold : Q) (candidates : list BookInfo)
  : list BookInfo :=
  let quality_books :=
    List.filter (fun book => validate_book_quality book threshold) candidates in
  if (Z.of_nat (length quality_books) <? MIN_BOOKS_PER_STAGE)%Z
     && Qgt_bool threshold (35 # 10)
  then List.filter
         (fun book => validate_book_quality book (threshold - (3 # 10)))
         candidates
  else quality_books.

(** [quality_books.sort(key=lambda x: x['score'], reverse=True)]: a stable
    sort, highest score first; books of equal score keep their order. *)
Fixpoint insert_by_score (x : BookInfo) (l : list BookInfo) : list BookInfo :=
  match l with
  | [] => [x]
  | y :: r =>
      if Rlt_dec (score x) (score y) then y :: insert_by_score x r
      else x :: l
  end.

Definition sort_by_score (l : list BookInfo) : list BookInfo :=
  fold_right insert_by_score [] l.

Definition validador_calidad (state : GraphState) : GraphState :=
  match truthy_stage (stage_being_processed state) with
  | None => state
  | Some stage =>
      let threshold := quality_threshold state in
      let candidates := default [] (book_candidates state !! stage) in
      let quality_books := quality_filter threshold candidates in
      let quality_books := sort_by_score quality_books in
      let selected_books := firstn 5 quality_books in
      set_books_by_stage (<[stage := selected_books]> (books_by_stage state))
        state
  end.

Definition gap_few_books (stage : string) (n : Z) : string :=
  ("La etapa '" ++ stage ++ "' necesita m" ++ chr 225
     ++ "s libros (actualmente " ++ PyStr.str_of_Z n ++ ")")%string.

Definition gap_low_rating (stage : string) : string :=
  ("Algunos libros en '" ++ stage ++ "' tienen calificaciones bajas")%string.

Definition gap_few_reviews (stage : string) : string :=
  ("Muchos libros en '" ++ stage ++ "' carecen de suficientes rese"
     ++ chr 241 ++ "as")%string.

(** The list [new_gaps] that [detector_gaps] builds for the books of a
    stage. *)
Definition detect_gaps (stage : string) (books : list BookInfo) : list string :=
  let len := Z.of_nat (length books) in
  let low_rated :=
    List.filter (fun b => Qlt_bool (rating b) (38 # 10)) books in
  let low_reviews := List.filter (fun b => (num_reviews b <? 50)%Z) books in
  (if (len <? MIN_BOOKS_PER_STAGE)%Z then [gap_few_books stage len] else [])
  ++ (if truthy_list low_rated then [gap_low_rating stage] else [])
  ++ (if (Z.of_nat (length low_reviews) >? len / 2)%Z
      then [gap_few_reviews stage] else []).

Definition detector_gaps (state : GraphState) : GraphState :=
  match truthy_stage (stage_being_processed state) with
  | None => state
  | Some stage =>
      let books := default [] (books_by_stage state !! stage) in
      let gaps := knowledge_gaps state in
      let new_gaps := detect_gaps stage books in
      if truthy_list new_gaps then set_knowledge_gaps (gaps ++ new_gaps) state
      else state
  end.

(** ** Validation nodes ([src/nodes/validation_nodes.py]) *)

Definition score_separator (c : ascii) : bool :=
  Ascii.eqb c ":" || PyStr.isspace c.

(** What [(\d+)/10|score[:\s]+(\d+)] with [re.IGNORECASE] matches at the
    start of [s]: the digits of the alternative that applies.  A run of
    digits is followed by [/10] as a whole or not at all, and neither the
    separators nor the digits after [score] can give a character back, so
    the greedy runs decide the match. *)
Definition score_at (s : string) : option string :=
  let (d, rest) := PyStr.span PyStr.isdecimal s in
  match d with
  | String _ _ => if PyStr.startswith rest "/10" then Some d else None
  | EmptyString =>
      if String.eqb (PyStr.lower (PyStr.take 5 s)) "score" then
        match PyStr.span score_separator (drop_str 5 s) with
        | (EmptyString, _) => None
        | (_, rest2) =>
            match fst (PyStr.span PyStr.isdecimal rest2) with
            | EmptyString => None
            | digits_found => Some digits_found
            end
        end
      else None
  end.

Fixpoint score_search (s : string) : option string :=
  match score_at s with
  | Some d => Some d
  | None =>
      match s with
      | EmptyString => None
      | String _ r => score_search r
      end
  end.

Definition extract_quality_score (validation_text : string) : Z :=
  match score_search validation_text with
  | Some d => default 7%Z (PyStr.int_of_str d)
  | None => 7%Z
  end.

Definition validador_global (response : option string) (state : GraphState)
  : GraphState :=
  let n := (validation_iterations state + 1)%Z in
  match response with
  | Some validation_text =>
      let quality_score := extract_quality_score validation_text in
      let low := PyStr.lower validation_text in
      let critical_issues :=
        (if PyStr.contains low "critical" || PyStr.contains low "major issue"
         then ["Critical issues detected in plan structure"%string] else [])
        ++ (if (quality_score <? 6)%Z
            then [("Low quality score: " ++ PyStr.str_of_Z quality_score
                     ++ "/10")%string]
            else []) in
      let state := set_validation_iterations n state in
      set_validation_feedback
        (validation_feedback state
           ++ [("Validation " ++ PyStr.str_of_Z n ++ ": Score "
                  ++ PyStr.str_of_Z quality_score ++ "/10")%string]
           ++ critical_issues)
        state
  | None =>
      let state := set_validation_iterations n state in
      set_validation_feedback
        (validation_feedback state
           ++ [("Validation " ++ PyStr.str_of_Z n
                  ++ ": Completed with warnings")%string])
        state
  end.

Section Workflow.

(** The heuristic second pass of the book parser (see [parse_books_from_text]). *)
Variable traditional_pass : list string -> list RawBook.

(** The text [formateador_salida] renders from a state, and the warning
    banner of [salida_forzada].  Both are taken as given: the rendering
    formats floats and both use characters beyond U+00FF; the nodes write
    nothing but [final_output] to the state (the file they save is outside
    it). *)
Variable render_document : GraphState -> string.
Variable disclaimer : string.

(** A failed call reaches the node as the empty list of
    [search_books_for_topic]; the node's own [except] branch stores the
    same empty candidate list and the same counter. *)
Definition investigador_libros (response : option string) (state : GraphState)
  : GraphState :=
  match truthy_stage (stage_being_processed state) with
  | None => state
  | Some stage =>
      let iterations := book_search_iterations state in
      let books_found := search_books_for_topic traditional_pass response in
      let book_candidates0 := omap to_book_info books_found in
      set_book_search_iterations (iterations + 1)
        (set_book_candidates
           (<[stage := book_candidates0]> (book_candidates state)) state)
  end.

Definition formateador_salida (state : GraphState) : GraphState :=
  set_final_output (render_document state) state.

Definition salida_forzada (state : GraphState) : GraphState :=
  let state := formateador_salida state in
  set_final_output (disclaimer ++ final_output state) state.

(** ** The graph ([src/graph.py]) *)

Inductive Node :=
| n_analizador_tema
| n_evaluador_nivel
| n_estructurador_plan
| n_selector_etapa
| n_replanificador
| n_investigador_libros
| n_validador_calidad
| n_detector_gaps
| n_decision_cobertura
| n_validador_global
| n_formateador_salida
| n_salida_forzada.

(** The function registered for each node, applied to the collaborator's
    answer for the nodes that ask for one. *)
Definition run_node (n : Node) (response : option string) (state : GraphState)
  : GraphState :=
  match n with
  | n_analizador_tema => analizador_tema response state
  | n_evaluador_nivel => evaluador_nivel state
  | n_estructurador_plan => estructurador_plan response state
  | n_selector_etapa => selector_etapa state
  | n_replanificador => replanificador response state
  | n_investigador_libros => investigador_libros response state
  | n_validador_calidad => validador_calidad state
  | n_detector_gaps => detector_gaps state
  | n_decision_cobertura => state
  | n_validador_global => validador_global response state
  | n_formateador_salida => formateador_salida state
  | n_salida_forzada => salida_forzada state
  end.

(** The edges: the state a node hands on after its outgoing edge has been
    evaluated, and the next node ([None] is [END]).  The conditional edges
    call the decision functions on the state the node returned. *)
Definition route (n : Node) (state : GraphState) : GraphState * option Node :=
  match n with
  | n_analizador_tema => (state, Some n_evaluador_nivel)
  | n_evaluador_nivel => (state, Some n_estructurador_plan)
  | n_estructurador_plan => (state, Some n_selector_etapa)
  | n_selector_etapa => (state, Some n_investigador_libros)
  | n_investigador_libros => (state, Some n_validador_calidad)
  | n_validador_calidad => (state, Some n_detector_gaps)
  | n_detector_gaps =>
      (state,
       match decision_busqueda_libros state with
       | reintentar_busqueda | busqueda_especifica => Some n_investigador_libros
       | aceptar_libros_actuales | libros_suficientes => Some n_decision_cobertura
       end)
  | n_decision_cobertura =>
      let (state', d) := decision_cobertura_etapas state in
      (state',
       match d with
       | siguiente_etapa => Some n_selector_etapa
       | validacion_global => Some n_validador_global
       end)
  | n_validador_global =>
      (state,
       match decision_validacion state with
       | forzar_salida => Some n_salida_forzada
       | replantear => Some n_replanificador
       | formatear => Some n_formateador_salida
       end)
  | n_replanificador => (state, Some n_selector_etapa)
  | n_formateador_salida | n_salida_forzada => (state, None)
  end.

(** One step of the executor: the node runs on the collaborator's answer,
    then its outgoing edge is followed. *)
Definition step (n : Node) (response : option string) (state : GraphState)
  : GraphState * option Node :=
  route n (run_node n response state).

(** [reachable n state]: in some session, the executor is about to run
    node [n] on [state].  A session starts at the entry point with the
    state [initialize_state] builds. *)
Inductive reachable : Node -> GraphState -> Prop :=
| reach_start (topic0 level : string) :
    reachable n_analizador_tema (initialize_state topic0 level)
| reach_step (n n' : Node) (response : option string)
    (state state' : GraphState) :
    reachable n state ->
    step n response state = (state', Some n') ->
    reachable n' state'.

End Workflow.

(** ** Vocabulary of the specification *)

(** [needle] occurs in [hay]. *)
Definition Substring (needle hay : string) : Prop :=
  exists pre suf : string, hay = (pre ++ needle ++ suf)%string.

(** [text] contains [word], case-insensitively ([word] is in lower case). *)
Definition mentions (text word : string) : Prop :=
  Substring word (PyStr.lower text).

(** Some knowledge gap mentions the stage name or the word "need". *)
Definition has_related_gap (state : GraphState) (stage : string) : Prop :=
  exists g, In g (knowledge_gaps state)
            /\ (mentions g (PyStr.lower stage) \/ mentions g "need").

(** Some stage of the plan has fewer than two books. *)
Definition has_stage_below_minimum (state : GraphState) : Prop :=
  exists stage_name,
    In stage_name (od_keys (study_plan_structure state))
    /\ (num_books (books_by_stage state) stage_name < 2)%Z.


(** The candidates a threshold keeps. *)
Definition survivors (threshold : Q) (candidates : list BookInfo) : list BookInfo :=
  List.filter (fun book => validate_book_quality book threshold) candidates.

(** The three conditions of gap detection. *)
Definition few_books (books : list BookInfo) : Prop :=
  (length books < 2)%nat.

Definition some_low_rating (books : list BookInfo) : Prop :=
  exists b, In b books /\ (rating b < 38 # 10)%Q.

(** More than half of the books have fewer than 50 reviews. *)
Definition mostly_few_reviews (books : list BookInfo) : Prop :=
  (length books
   < 2 * length (List.filter (fun b => (num_reviews b <? 50)%Z) books))%nat.

(** *** Generated book blocks

    The format is the one [search_books_for_topic] asks the collaborator
    for: six marked lines and a separator line. *)

(** The values a generator writes into a block.  The rating is a decimal
    numeral, its whole part and the digits after the point; the review
    count is a natural number. *)
Record BookEntry := {
  e_title : string;
  e_author : string;
  e_year : string;
  e_rating_units : N;
  e_rating_decimals : Decimal.uint;
  e_reviews : N;
  e_reason : string
}.

Definition rating_text (e : BookEntry) : string :=
  (PyStr.str_of_Z (Z.of_N (e_rating_units e)) ++ "."
     ++ NilEmpty.string_of_uint (e_rating_decimals e))%string.


Definition block_lines (e : BookEntry) : list string :=
  [ "Title: " ++ e_title e;
    "Author: " ++ e_author e;
    "Year: " ++ e_year e;
    "Rating: " ++ rating_text e;
    "Reviews: " ++ PyStr.str_of_Z (Z.of_N (e_reviews e));
    "Why: " ++ e_reason e;
    "---" ]%string.

Definition render_block (e : BookEntry) : string :=
  PyStr.join (String newline EmptyString) (block_lines e).






(** A year the parser recognises: four digits that begin with 19 or 20. *)
Definition four_digit_year (y : string) : bool :=
  match y with
  | String a (String b (String c (String d EmptyString))) =>
      ((Ascii.eqb a "1" && Ascii.eqb b "9")
       || (Ascii.eqb a "2" && Ascii.eqb b "0"))
      && PyStr.isdecimal c && PyStr.isdecimal d
  | _ => false
  end.


(** The order [sort_by_score] establishes: highest score first. *)
Definition score_ge (a b : BookInfo) : Prop := (score b <= score a)%R.

(** ** Sample data *)

Definition sample_book (title0 : string) (rating0 : Q) (num_reviews0 : Z)
  : BookInfo :=
  {| title := title0; author := "Unknown"; year := None; rating := rating0;
     num_reviews := num_reviews0; reason := "Recommended for this topic";
     score := weighted_score rating0 num_reviews0 |}.

Definition session_start : GraphState := initialize_state "Algorithms" "beginner".

(** Three searches done for stage A, no book found. *)
Definition exhausted_search : GraphState :=
  set_book_search_iterations 3
    (set_stage_being_processed (Some "A"%string) session_start).

(** A plan of two stages, A with two books and B with one. *)
Definition two_stage_plan : GraphState :=
  set_books_by_stage
    (<["A"%string := [sample_book "A1" (45 # 10) 1200;
                      sample_book "A2" (42 # 10) 300]]>
       (<["B"%string := [sample_book "B1" (41 # 10) 80]]> ∅))
    (set_study_plan_structure
       [("A"%string, mk_stage "" "4 weeks" [] []);
        ("B"%string, mk_stage "" "4 weeks" [] [])]
       session_start).

(** Stage B selected, with its single, thinly reviewed book. *)
Definition thin_stage : GraphState :=
  set_stage_being_processed (Some "B"%string) two_stage_plan.

(** Candidates for stage A of which only one reaches the threshold 4.0 and
    a second one the relaxed 3.7. *)
Definition relaxing_candidates : GraphState :=
  set_book_candidates
    (<["A"%string := [sample_book "C1" (45 # 10) 1200;
                      sample_book "C2" (38 # 10) 300;
                      sample_book "C3" (30 # 10) 80]]> ∅)
    (set_stage_being_processed (Some "A"%string) session_start).


Definition clean_code : BookEntry :=
  {| e_title := "Clean Code"; e_author := "Robert C. Martin";
     e_year := "2008"; e_rating_units := 4;
     e_rating_decimals := Decimal.D4 Decimal.Nil; e_reviews := 5200;
     e_reason := "A classic on writing maintainable code." |}.


(** A title that quotes its own marker. *)
Definition quoted_marker : BookEntry :=
  {| e_title := "The Title: A Study"; e_author := "A. Writer";
     e_year := "2001"; e_rating_units := 4;
     e_rating_decimals := Decimal.D0 Decimal.Nil; e_reviews := 10;
     e_reason := "Recommended." |}.

(** A title written with a space at either end. *)
Definition padded_title : BookEntry :=
  {| e_title := " Dune "; e_author := "Frank Herbert";
     e_year := "1965"; e_rating_units := 4;
     e_rating_decimals := Decimal.D3 Decimal.Nil; e_reviews := 900;
     e_reason := "Recommended." |}.

(** A reason that runs over two lines. *)
Definition two_line_reason : BookEntry :=
  {| e_title := "SICP"; e_author := "Abelson and Sussman";
     e_year := "1985"; e_rating_units := 4;
     e_rating_decimals := Decimal.D6 Decimal.Nil; e_reviews := 700;
     e_reason := "Deep." ++ String newline "Worth the effort." |}.

(** The answer of the collaborator that holds the block of [clean_code]. *)
Definition clean_code_answer : option string := Some (render_block clean_code).

Definition searching_stage_A : GraphState :=
  set_stage_being_processed (Some "A"%string) session_start.

Definition clean_code_book : BookInfo :=
  {| title := "Clean Code"; author := "Robert C. Martin";
     year := Some "2008"%string; rating := 44 # 10; num_reviews := 5200;
     reason := "A classic on writing maintainable code.";
     score := weighted_score (44 # 10) 5200 |}.

(** Stage A was searched three times and is now covered; B is not. *)
Definition moving_on : GraphState :=
  set_book_search_iterations 3
    (set_stage_being_processed (Some "A"%string) two_stage_plan).



(** ** Sessions

    What the nodes of a session see, for the invariants of the graph. *)

(** The counters a session can show at each node. *)
Definition session_counters (n : Node) (state : GraphState) : Prop :=
  let v := validation_iterations state in
  let r := plan_refinement_iterations state in
  match n with
  | n_analizador_tema | n_evaluador_nivel | n_estructurador_plan =>
      v = 0%Z /\ r = 0%Z
  | n_replanificador => v = 1%Z /\ r = 1%Z
  | n_formateador_salida => (1 <= v <= 2)%Z /\ (1 <= r <= 2)%Z
  | n_salida_forzada => False
  | _ => (r = 1%Z \/ r = 2%Z) /\ v = (r - 1)%Z
  end.

(** Every stage listed has no book, and none is waiting as a candidate. *)
Definition starved (state : GraphState) : Prop :=
  (forall k v, books_by_stage state !! k = Some v -> v = [])
  /\ (forall k v, book_candidates state !! k = Some v -> v = []).

Definition before_validation (n : Node) : bool :=
  match n with
  | n_analizador_tema | n_evaluador_nivel | n_estructurador_plan
  | n_selector_etapa | n_investigador_libros | n_validador_calidad
  | n_detector_gaps | n_decision_cobertura => true
  | _ => false
  end.

Definition planned (n : Node) (state : GraphState) : Prop :=
  match n with
  | n_analizador_tema | n_evaluador_nivel | n_estructurador_plan => True
  | _ => study_plan_structure state <> []
  end.

Section FailingRun.

Variable traditional_pass : list string -> list RawBook.
Variable render_document : GraphState -> string.
Variable disclaimer : string.

(** [k] steps of the executor with a collaborator that fails at every
    call; [None] when an output node has ended the run before. *)
Fixpoint run_failing (k : nat) (n : Node) (state : GraphState)
  : option (Node * GraphState) :=
  match k with
  | O => Some (n, state)
  | S k' =>
      match step traditional_pass render_document disclaimer n None state with
      | (state', Some n') => run_failing k' n' state'
      | (_, None) => None
      end
  end.

End FailingRun.

(** One round of the book-search loop: research, validation, gap
    detection. *)
Definition search_round (traditional_pass : list string -> list RawBook)
    (response : option string) (state : GraphState) : GraphState :=
  detector_gaps
    (validador_calidad (investigador_libros traditional_pass response state)).

(** A candidate as book research builds it. *)
Definition good_candidate (b : BookInfo) : Prop :=
  title b <> EmptyString
  /\ score b = weighted_score (rating b) (num_reviews b).

(** A book as quality validation accepts it in a session, where the
    threshold is 4.0 and may be relaxed to 3.7. *)
Definition accepted_book (b : BookInfo) : Prop :=
  good_candidate b /\ (37 # 10 <= rating b)%Q.

(** The shelves of a session once the plan is made: the selected stage,
    the stages with candidates and the stages with books are stages of the
    plan; candidates and books are well formed; no stage holds more than
    five books. *)
Definition shelves_ok (state : GraphState) : Prop :=
  let stages := od_keys (study_plan_structure state) in
  quality_threshold state = QUALITY_THRESHOLD
  /\ (forall s, stage_being_processed state = Some s -> In s stages)
  /\ (forall k cs, book_candidates state !! k = Some cs ->
        In k stages /\ Forall good_candidate cs)
  /\ (forall k books, books_by_stage state !! k = Some books ->
        In k stages /\ (length books <= 5)%nat /\ Forall accepted_book books).

(** The shelves before the plan is made. *)
Definition empty_shelves (state : GraphState) : Prop :=
  quality_threshold state = QUALITY_THRESHOLD
  /\ stage_being_processed state = None
  /\ book_candidates state = ∅
  /\ books_by_stage state = ∅.

Definition session_shelves (n : Node) (state : GraphState) : Prop :=
  match n with
  | n_analizador_tema | n_evaluador_nivel | n_estructurador_plan =>
      empty_shelves state
  | _ => shelves_ok state
  end.

(** ** Readings of the texts *)

Definition listed (k : string) (stages : list string) : bool :=
  existsb (String.eqb k) stages.

(** The stage name a line of the plan text announces, when the line is a
    stage header. *)
Definition header_name (raw_line : string) : option string :=
  option_map PyStr.strip (stage_match (PyStr.strip raw_line)).

(** The entries of [l] not in [seen], each at its first occurrence. *)
Fixpoint first_occurrences (seen l : list string) : list string :=
  match l with
  | [] => []
  | x :: r =>
      if existsb (String.eqb x) seen then first_occurrences seen r
      else x :: first_occurrences (seen ++ [x]) r
  end.

(** A year field as the parser leaves it: absent, or four digits that
    begin with 19 or 20. *)
Definition year_ok (y : option string) : Prop :=
  match y with
  | None => True
  | Some s => four_digit_year s = true
  end.

(** What the structured pass guarantees of a record: a title, and no
    negative rating or review count. *)
Definition fields_ok (b : RawBook) : Prop :=
  has_title b = true
  /\ (forall q, rb_rating b = Some q -> (0 <= q)%Q)
  /\ (forall n, rb_num_reviews b = Some n -> (0 <= n)%Z)
  /\ (forall y, rb_year b = Some y -> year_ok y).


(** ** A sample session *)

(** A search answer with the same well-rated book twice. *)
Definition two_blocks_answer : option string :=
  Some (render_block clean_code ++ String newline (render_block clean_code))%string.

(** A session with a one-stage plan, just before the search for books. *)
Definition one_stage_session : GraphState :=
  selector_etapa
    (estructurador_plan (Some "Stage 1: Basics"%string)
       (evaluador_nivel (analizador_tema None session_start))).

(** The same session after one search that found two good books, when the
    coverage decision has passed it on to global validation. *)
Definition covered_session : GraphState :=
  fst (decision_cobertura_etapas
         (detector_gaps
            (validador_calidad
               (investigador_libros (fun _ => []) two_blocks_answer
                  one_stage_session)))).


(** * Properties *)

(** ** Substrings *)

Lemma startswith_spec (s p : string) :
  PyStr.startswith s p = true <-> exists suf, s = (p ++ suf)%string.
Proof.
  revert s. induction p as [|a p IH]; intros s; simpl.
  - split; [intros _; now exists s | reflexivity].
  - destruct s as [|b s]; simpl.
    + split; [discriminate | intros [suf H]; discriminate].
    + rewrite andb_true_iff, Ascii.eqb_eq, IH. split.
      * intros [-> [suf ->]]. now exists suf.
      * intros [suf H]. injection H as -> ->. split; [reflexivity | now exists suf].
Qed.

Lemma contains_spec (hay needle : string) :
  PyStr.contains hay needle = true <-> Substring needle hay.
Proof.
  induction hay as [|c r IH]; simpl PyStr.contains.
  - rewrite orb_false_r, startswith_spec. split.
    + intros [suf H]. exists EmptyString, suf. exact H.
    + intros [pre [suf H]]. destruct pre; [now exists suf | discriminate].
  - rewrite orb_true_iff, IH, startswith_spec. split.
    + intros [[suf H] | [pre [suf H]]].
      * exists EmptyString, suf. exact H.
      * exists (String c pre), suf. simpl. now rewrite H.
    + intros [pre [suf H]]. destruct pre as [|c' pre].
      * left. now exists suf.
      * right. simpl in H. injection H as _ H. now exists pre, suf.
Qed.

(** Every node is a composition of assignments; [node_cases] exposes them
    by splitting on each test the node makes. *)
Ltac node_cases :=
  repeat match goal with
         | |- context [match ?x with _ => _ end] => destruct x eqn:?; simpl
         | |- context [if ?b then _ else _] => destruct b eqn:?; simpl
         end.

(** ** The decision functions *)

Lemma truthy_filter {A} (f : A -> bool) (l : list A) :
  truthy_list (List.filter f l) = true <-> exists x, In x l /\ f x = true.
Proof.
  induction l as [|a l IH]; simpl.
  - split; [discriminate | intros [x [[] _]]].
  - destruct (f a) eqn:Ha; simpl.
    + split; [intros _; exists a; auto | reflexivity].
    + rewrite IH. split.
      * intros [x [Hx Hf]]. exists x. auto.
      * intros [x [[<- | Hx] Hf]]; [congruence | exists x; auto].
Qed.

Lemma stage_related_spec (stage g : string) :
  stage_related stage g = true
  <-> mentions g (PyStr.lower stage) \/ mentions g "need".
Proof.
  unfold stage_related, mentions.
  now rewrite orb_true_iff, !contains_spec.
Qed.

Lemma related_gaps_spec (state : GraphState) (stage : string) :
  truthy_list (List.filter (stage_related stage) (knowledge_gaps state)) = true
  <-> has_related_gap state stage.
Proof.
  rewrite truthy_filter. unfold has_related_gap.
  split; intros [g [Hg H]]; exists g; split; auto; now apply stage_related_spec.
Qed.

Lemma stages_below_minimum_spec (state : GraphState) :
  truthy_list (stages_below_minimum state) = true
  <-> has_stage_below_minimum state.
Proof.
  unfold stages_below_minimum, has_stage_below_minimum.
  rewrite truthy_filter. unfold MIN_BOOKS_PER_STAGE.
  split; intros [x [Hx H]]; exists x; split; auto; lia.
Qed.



(** C1.  With a stage selected, the book-search decision applies its rules
    in the documented order: at three or more searches it accepts the
    current books; otherwise with fewer than two books for the stage it
    retries; otherwise, when a gap mentions the stage name or the word
    "need" and fewer than two searches were made, it searches
    specifically; otherwise the books are sufficient.  In particular
    three searches and no book give accept-current.  A stage is selected
    when [stage_being_processed] holds a non-empty name, the test the
    function itself makes. *)
Theorem decision_busqueda_libros_order (state : GraphState) (stage : string) :
  stage_being_processed state = Some stage ->
  stage <> EmptyString ->
  let n := book_search_iterations state in
  let books := Z.of_nat (length (default [] (books_by_stage state !! stage))) in
  let d := decision_busqueda_libros state in
  ((3 <= n)%Z -> d = aceptar_libros_actuales)
  /\ ((n < 3)%Z -> (books < 2)%Z -> d = reintentar_busqueda)
  /\ ((n < 3)%Z -> (2 <= books)%Z ->
      has_related_gap state stage /\ (n < 2)%Z -> d = busqueda_especifica)
  /\ ((n < 3)%Z -> (2 <= books)%Z ->
      ~ (has_related_gap state stage /\ (n < 2)%Z) -> d = libros_suficientes)
  /\ (n = 3%Z -> books = 0%Z -> d = aceptar_libros_actuales).
Proof.
  intros Hst Hne n books d.
  assert (Hd : d =
    if (n >=? 3)%Z then aceptar_libros_actuales
    else if (books <? 2)%Z then reintentar_busqueda
    else if truthy_list (List.filter (stage_related stage) (knowledge_gaps state))
            && (n <? 2)%Z
    then busqueda_especifica else libros_suficientes).
  { subst d n books. unfold decision_busqueda_libros. rewrite Hst.
    destruct stage as [|c r]; [congruence | reflexivity]. }
  rewrite Hd. clear Hd.
  pose proof (related_gaps_spec state stage) as Hrel.
  destruct (truthy_list _) eqn:Ht.
  - assert (Hg : has_related_gap state stage) by now apply Hrel.
    repeat split; intros;
      destruct (Z.geb_spec n 3), (Z.ltb_spec books 2), (Z.ltb_spec n 2);
      simpl; try reflexivity; try lia; tauto.
  - assert (Hg : ~ has_related_gap state stage).
    { intros H. apply Hrel in H. discriminate. }
    repeat split; intros;
      destruct (Z.geb_spec n 3), (Z.ltb_spec books 2), (Z.ltb_spec n 2);
      simpl; try reflexivity; try lia; tauto.
Qed.


Lemma decision_busqueda_libros_order_witness :
  stage_being_processed exhausted_search = Some "A"%string
  /\ "A"%string <> EmptyString
  /\ decision_busqueda_libros exhausted_search = aceptar_libros_actuales.
Proof.
  assert (H1 : stage_being_processed exhausted_search = Some "A"%string)
    by reflexivity.
  assert (H2 : "A"%string <> EmptyString) by discriminate.
  split; [exact H1 | split; [exact H2|]].
  destruct (decision_busqueda_libros_order exhausted_search "A" H1 H2)
    as (_ & _ & _ & _ & H).
  apply H; reflexivity.
Defined.


(** C4.  The coverage decision answers next-stage and stores
    [all_stages_covered = false] exactly when some stage of the plan has
    fewer than two books, and answers validate-globally and stores [true]
    exactly when none has.  For a plan [A, B] with two books at [A] and
    one at [B] the answer is next-stage and the flag becomes false. *)
Theorem decision_cobertura_etapas_spec (state : GraphState) :
  let state' := fst (decision_cobertura_etapas state) in
  let d := snd (decision_cobertura_etapas state) in
  (has_stage_below_minimum state
   <-> d = siguiente_etapa /\ all_stages_covered state' = false)
  /\ (~ has_stage_below_minimum state
      <-> d = validacion_global /\ all_stages_covered state' = true)
  /\ (forall A B,
        od_keys (study_plan_structure state) = [A; B] ->
        num_books (books_by_stage state) A = 2%Z ->
        num_books (books_by_stage state) B = 1%Z ->
        d = siguiente_etapa /\ all_stages_covered state' = false).
Proof.
  intros state' d. subst state' d.
  pose proof (stages_below_minimum_spec state) as Hs.
  assert (Hex : forall A B,
            od_keys (study_plan_structure state) = [A; B] ->
            num_books (books_by_stage state) B = 1%Z ->
            has_stage_below_minimum state).
  { intros A B Hk HB. exists B. rewrite Hk, HB. split; [simpl; auto | lia]. }
  unfold decision_cobertura_etapas.
  destruct (truthy_list (stages_below_minimum state)); simpl.
  - assert (H : has_stage_below_minimum state) by now apply Hs.
    split; [|split].
    + tauto.
    + split; [tauto | intros [Hd _]; discriminate].
    + auto.
  - assert (H : ~ has_stage_below_minimum state).
    { intros H. apply Hs in H. discriminate. }
    split; [|split].
    + split; [tauto | intros [Hd _]; discriminate].
    + tauto.
    + intros A B Hk _ HB. exfalso. eauto.
Qed.

Lemma decision_cobertura_etapas_spec_witness :
  od_keys (study_plan_structure two_stage_plan) = ["A"; "B"]%string
  /\ num_books (books_by_stage two_stage_plan) "A" = 2%Z
  /\ num_books (books_by_stage two_stage_plan) "B" = 1%Z
  /\ snd (decision_cobertura_etapas two_stage_plan) = siguiente_etapa
  /\ all_stages_covered (fst (decision_cobertura_etapas two_stage_plan)) = false.
Proof.
  assert (HA : num_books (books_by_stage two_stage_plan) "A" = 2%Z)
    by reflexivity.
  assert (HB : num_books (books_by_stage two_stage_plan) "B" = 1%Z)
    by reflexivity.
  split; [reflexivity | split; [exact HA | split; [exact HB|]]].
  destruct (decision_cobertura_etapas_spec two_stage_plan) as (_ & _ & H).
  exact (H "A"%string "B"%string eq_refl HA HB).
Defined.

(** ** Plan structuring *)

Lemma create_default_stages_size (topic0 level : string) :
  length (create_default_stages topic0 level)
  = if String.eqb level "beginner" then 3%nat else 2%nat.
Proof.
  unfold create_default_stages.
  destruct (String.eqb level "beginner"); reflexivity.
Qed.

Lemma create_default_stages_keys (topic0 level : string) :
  List.NoDup (od_keys (create_default_stages topic0 level)).
Proof.
  assert (Hk : od_keys (create_default_stages topic0 level)
               = if String.eqb level "beginner"
                 then [("Fundamentals of " ++ topic0)%string;
                       ("Intermediate " ++ topic0)%string;
                       ("Advanced " ++ topic0)%string]
                 else [("Core " ++ topic0)%string;
                       ("Advanced " ++ topic0)%string]).
  { unfold create_default_stages.
    destruct (String.eqb level "beginner"); reflexivity. }
  rewrite Hk.
  destruct (String.eqb level "beginner");
    repeat (apply List.NoDup_cons; [cbn [In]; intros H|]);
    try apply List.NoDup_nil;
    repeat (destruct H as [H | H];
            [apply String.eqb_eq in H; vm_compute in H; discriminate H|]);
    exact H.
Qed.

Lemma estructurador_plan_fallback (response : option string) (state : GraphState) :
  response = None
  \/ (exists text, response = Some text /\ scan_stages text = []) ->
  study_plan_structure (estructurador_plan response state)
  = create_default_stages (topic state) (user_level state).
Proof.
  intros [-> | [text [-> Hscan]]]; [reflexivity|].
  unfold estructurador_plan, parse_stages_from_text. now rewrite Hscan.
Qed.

Lemma estructurador_plan_counter_on_answer (text : string) (state : GraphState) :
  plan_refinement_iterations (estructurador_plan (Some text) state)
  = (plan_refinement_iterations state + 1)%Z.
Proof. reflexivity. Qed.

Lemma estructurador_plan_counter_on_failure (state : GraphState) :
  plan_refinement_iterations (estructurador_plan None state) = 1%Z.
Proof. reflexivity. Qed.


(** ** What the nodes leave alone *)

Lemma option_string_eqb_spec (a b : option string) :
  option_string_eqb a b = true <-> a = b.
Proof.
  destruct a as [x|], b as [y|]; simpl; try (split; congruence).
  rewrite String.eqb_eq. split; congruence.
Qed.

Section Frame.

Variable traditional_pass : list string -> list RawBook.
Variable render_document : GraphState -> string.
Variable disclaimer : string.

Local Abbreviation run := (run_node traditional_pass render_document disclaimer).

Lemma selector_etapa_selected (state : GraphState) (next : string) :
  stage_being_processed (selector_etapa state) = Some next ->
  book_search_iterations (selector_etapa state)
  = if option_string_eqb (Some next) (stage_being_processed state)
    then book_search_iterations state else 0%Z.
Proof.
  unfold selector_etapa.
  destruct (truthy_stage _) as [s|] eqn:Hs.
  - destruct (option_string_eqb (Some s) (stage_being_processed state)) eqn:He;
      cbn -[option_string_eqb]; intros [= <-]; now rewrite He.
  - discriminate.
Qed.

Lemma selector_etapa_none (state : GraphState) :
  stage_being_processed (selector_etapa state) = None ->
  book_search_iterations (selector_etapa state) = book_search_iterations state.
Proof.
  unfold selector_etapa.
  destruct (truthy_stage _) as [s|] eqn:Hs; [|reflexivity].
  destruct (negb _); discriminate.
Qed.

Lemma selector_etapa_other_counters (state : GraphState) :
  validation_iterations (selector_etapa state) = validation_iterations state
  /\ plan_refinement_iterations (selector_etapa state)
     = plan_refinement_iterations state.
Proof. unfold selector_etapa. node_cases; auto. Qed.

Lemma run_book_search_iterations (n : Node) (response : option string)
    (state : GraphState) :
  n <> n_selector_etapa ->
  book_search_iterations (run n response state) = book_search_iterations state
  \/ book_search_iterations (run n response state)
     = (book_search_iterations state + 1)%Z.
Proof.
  intros Hn. destruct n; try congruence; simpl;
    unfold analizador_tema, evaluador_nivel, estructurador_plan, replanificador,
      investigador_libros, validador_calidad, detector_gaps, validador_global,
      formateador_salida, salida_forzada;
    node_cases; auto.
Qed.

Lemma run_validation_iterations (n : Node) (response : option string)
    (state : GraphState) :
  validation_iterations (run n response state) = validation_iterations state
  \/ validation_iterations (run n response state)
     = (validation_iterations state + 1)%Z.
Proof.
  destruct n; simpl;
    unfold analizador_tema, evaluador_nivel, estructurador_plan, selector_etapa,
      replanificador,
      investigador_libros, validador_calidad, detector_gaps, validador_global,
      formateador_salida, salida_forzada;
    node_cases; auto.
Qed.

Lemma run_plan_refinement_iterations (n : Node) (response : option string)
    (state : GraphState) :
  plan_refinement_iterations (run n response state)
  = plan_refinement_iterations state
  \/ plan_refinement_iterations (run n response state)
     = (plan_refinement_iterations state + 1)%Z
  \/ (n = n_estructurador_plan /\ response = None
      /\ plan_refinement_iterations (run n response state) = 1%Z).
Proof.
  destruct n; simpl;
    unfold analizador_tema, evaluador_nivel, estructurador_plan, selector_etapa,
      replanificador,
      investigador_libros, validador_calidad, detector_gaps, validador_global,
      formateador_salida, salida_forzada;
    node_cases; auto.
Qed.

Lemma run_quality_threshold (n : Node) (response : option string)
    (state : GraphState) :
  quality_threshold (run n response state) = quality_threshold state.
Proof.
  destruct n; simpl;
    unfold analizador_tema, evaluador_nivel, estructurador_plan, selector_etapa,
      replanificador,
      investigador_libros, validador_calidad, detector_gaps, validador_global,
      formateador_salida, salida_forzada;
    node_cases; auto.
Qed.

End Frame.

(** *** Sessions

    Plan structuring runs once in a session, before any refinement. *)

Section Session.

Variable traditional_pass : list string -> list RawBook.
Variable render_document : GraphState -> string.
Variable disclaimer : string.

Local Abbreviation run := (run_node traditional_pass render_document disclaimer).
Local Abbreviation step' := (step traditional_pass render_document disclaimer).
Local Abbreviation reach := (reachable traditional_pass render_document disclaimer).

Lemma route_counters (n : Node) (state : GraphState) :
  book_search_iterations (fst (route n state)) = book_search_iterations state
  /\ validation_iterations (fst (route n state)) = validation_iterations state
  /\ plan_refinement_iterations (fst (route n state))
     = plan_refinement_iterations state.
Proof.
  destruct n; cbn [route fst]; try (repeat split; reflexivity).
  unfold decision_cobertura_etapas.
  destruct (truthy_list _); repeat split; reflexivity.
Qed.

Lemma route_into_prologue (n n' : Node) (state state' : GraphState) :
  route n state = (state', Some n') ->
  (n' <> n_analizador_tema)
  /\ (n' = n_evaluador_nivel -> n = n_analizador_tema)
  /\ (n' = n_estructurador_plan -> n = n_evaluador_nivel).
Proof.
  destruct n; cbn [route]; unfold decision_cobertura_etapas;
    try destruct (truthy_list _);
    try destruct (decision_busqueda_libros _);
    try destruct (decision_validacion _);
    intros [= <- <-]; repeat split; congruence.
Qed.

(** Before the plan is structured, it has never been refined. *)
Lemma prologue_unrefined (n : Node) (state : GraphState) :
  reach n state ->
  n = n_analizador_tema \/ n = n_evaluador_nivel \/ n = n_estructurador_plan ->
  plan_refinement_iterations state = 0%Z.
Proof.
  induction 1 as [|n n' response state state' Hreach IH Hstep]; intros Hn.
  - reflexivity.
  - unfold step in Hstep.
    destruct (route_into_prologue _ _ _ _ Hstep) as (H0 & H1 & H2).
    assert (Hpre : (n = n_analizador_tema \/ n = n_evaluador_nivel)).
    { destruct Hn as [Hn | [Hn | Hn]]; [contradiction | left; auto | right; auto]. }
    assert (Hz : plan_refinement_iterations state = 0%Z) by (apply IH; tauto).
    pose proof (route_counters n (run n response state)) as (_ & _ & Hr).
    rewrite Hstep in Hr. cbn [fst] in Hr. rewrite Hr.
    destruct Hpre as [-> | ->]; cbn [run_node].
    + unfold analizador_tema. node_cases; exact Hz.
    + unfold evaluador_nivel. node_cases; exact Hz.
Qed.

(** Within a session no step lowers the validation or the refinement
    counter, and only stage selection can lower the book-search counter. *)
Lemma session_counters_monotone (n : Node) (response : option string)
    (state : GraphState) :
  reach n state ->
  let state' := fst (step' n response state) in
  (validation_iterations state <= validation_iterations state')%Z
  /\ (plan_refinement_iterations state <= plan_refinement_iterations state')%Z
  /\ (n <> n_selector_etapa ->
      (book_search_iterations state <= book_search_iterations state')%Z).
Proof.
  intros Hreach state'. subst state'. unfold step.
  destruct (route_counters n (run n response state)) as (Hb & Hv & Hp).
  rewrite Hb, Hv, Hp. split; [|split].
  - destruct (run_validation_iterations traditional_pass render_document
                disclaimer n response state) as [-> | ->]; lia.
  - destruct (run_plan_refinement_iterations traditional_pass render_document
                disclaimer n response state) as [-> | [-> | (Hn & _ & ->)]];
      try lia.
    rewrite (prologue_unrefined n state Hreach); [lia | tauto].
  - intros Hn.
    destruct (run_book_search_iterations traditional_pass render_document
                disclaimer n response state Hn) as [-> | ->]; lia.
Qed.

(** Within a session plan structuring always adds one to the refinement
    counter: it only runs while the counter is zero. *)
Lemma session_estructurador_increments (response : option string)
    (state : GraphState) :
  reach n_estructurador_plan state ->
  plan_refinement_iterations (estructurador_plan response state)
  = (plan_refinement_iterations state + 1)%Z.
Proof.
  intros Hreach.
  assert (Hz : plan_refinement_iterations state = 0%Z)
    by (apply (prologue_unrefined _ _ Hreach); tauto).
  destruct response as [text|].
  - apply estructurador_plan_counter_on_answer.
  - rewrite estructurador_plan_counter_on_failure, Hz. reflexivity.
Qed.

End Session.

(** C2.  Stage selection sets the book-search counter to zero when the
    stage it selects differs from the stage selected before, and leaves
    it as it is when it selects the same stage again (or none); it never
    touches the other two counters.  No other operation stores zero in a
    counter: each node other than stage selection leaves a counter alone
    or adds one to it, except that plan structuring, when the
    collaborator fails, stores the constant 1 in the refinement counter;
    the coverage decision changes no counter, and the other two decisions
    change no state at all.  In a session, which starts from
    [initialize_state], no step lowers the validation or the refinement
    counter, and only stage selection lowers the book-search counter. *)
Theorem selector_etapa_reset_on_change
    (traditional_pass : list string -> list RawBook)
    (render_document : GraphState -> string) (disclaimer : string)
    (state : GraphState) :
  let state' := selector_etapa state in
  (forall next,
      stage_being_processed state' = Some next ->
      (Some next = stage_being_processed state ->
       book_search_iterations state' = book_search_iterations state)
      /\ (Some next <> stage_being_processed state ->
          book_search_iterations state' = 0%Z))
  /\ (stage_being_processed state' = None ->
      book_search_iterations state' = book_search_iterations state)
  /\ validation_iterations state' = validation_iterations state
  /\ plan_refinement_iterations state' = plan_refinement_iterations state
  /\ (forall n response,
        n <> n_selector_etapa ->
        let s1 := run_node traditional_pass render_document disclaimer
                    n response state in
        (book_search_iterations s1 = book_search_iterations state
         \/ book_search_iterations s1 = (book_search_iterations state + 1)%Z)
        /\ (validation_iterations s1 = validation_iterations state
            \/ validation_iterations s1 = (validation_iterations state + 1)%Z)
        /\ (plan_refinement_iterations s1 = plan_refinement_iterations state
            \/ plan_refinement_iterations s1
               = (plan_refinement_iterations state + 1)%Z
            \/ (n = n_estructurador_plan /\ response = None
                /\ plan_refinement_iterations s1 = 1%Z)))
  /\ (let s2 := fst (decision_cobertura_etapas state) in
      book_search_iterations s2 = book_search_iterations state
      /\ validation_iterations s2 = validation_iterations state
      /\ plan_refinement_iterations s2 = plan_refinement_iterations state)
  /\ (forall n response,
        reachable traditional_pass render_document disclaimer n state ->
        let s3 := fst (step traditional_pass render_document disclaimer
                         n response state) in
        (validation_iterations state <= validation_iterations s3)%Z
        /\ (plan_refinement_iterations state
            <= plan_refinement_iterations s3)%Z
        /\ (n <> n_selector_etapa ->
            (book_search_iterations state <= book_search_iterations s3)%Z)).
Proof.
  intros state'. subst state'.
  split; [|split; [|split; [|split; [|split; [|split]]]]].
  - intros next Hnext. rewrite (selector_etapa_selected _ _ Hnext).
    split; intros H.
    + apply option_string_eqb_spec in H. now rewrite H.
    + destruct (option_string_eqb _ _) eqn:He; [|reflexivity].
      apply option_string_eqb_spec in He. contradiction.
  - apply selector_etapa_none.
  - apply selector_etapa_other_counters.
  - apply selector_etapa_other_counters.
  - intros n response Hn. simpl. split; [|split].
    + now apply run_book_search_iterations.
    + apply run_validation_iterations.
    + apply run_plan_refinement_iterations.
  - unfold decision_cobertura_etapas. node_cases; auto.
  - intros n response Hreach. now apply session_counters_monotone.
Qed.

(** C10.  Quality validation leaves [quality_threshold] as it found it:
    the relaxed value only enters the comparison of the filter.  No other
    node and no decision function writes the field either. *)
Theorem quality_threshold_unchanged
    (traditional_pass : list string -> list RawBook)
    (render_document : GraphState -> string) (disclaimer : string)
    (state : GraphState) :
  quality_threshold (validador_calidad state) = quality_threshold state
  /\ (forall n response,
        quality_threshold
          (run_node traditional_pass render_document disclaimer n response state)
        = quality_threshold state)
  /\ quality_threshold (fst (decision_cobertura_etapas state))
     = quality_threshold state.
Proof.
  split; [|split].
  - apply (run_quality_threshold traditional_pass render_document disclaimer
             n_validador_calidad None).
  - intros n response. apply run_quality_threshold.
  - unfold decision_cobertura_etapas. node_cases; auto.
Qed.

Lemma selector_etapa_reset_on_change_witness :
  stage_being_processed (selector_etapa moving_on) = Some "B"%string
  /\ Some "B"%string <> stage_being_processed moving_on
  /\ book_search_iterations moving_on = 3%Z
  /\ book_search_iterations (selector_etapa moving_on) = 0%Z.
Proof.
  assert (H1 : stage_being_processed (selector_etapa moving_on)
               = Some "B"%string) by reflexivity.
  assert (H2 : Some "B"%string <> stage_being_processed moving_on)
    by discriminate.
  split; [exact H1 | split; [exact H2 | split; [reflexivity|]]].
  destruct (selector_etapa_reset_on_change (fun _ => []) (fun _ => EmptyString)
              EmptyString moving_on) as (H & _).
  destruct (H "B"%string H1) as (_ & Hreset).
  exact (Hreset H2).
Defined.

(** ** Book research and the quality filter *)

Lemma ln_count_nonneg (n : Z) : (0 <= ln (IZR (Z.max n 1 + 1)))%R.
Proof.
  assert (H : (1 <= IZR (Z.max n 1 + 1))%R) by (apply IZR_le; lia).
  rewrite <- ln_1. destruct H as [H | <-].
  - left. apply ln_increasing; lra.
  - right. reflexivity.
Qed.

Lemma weighted_score_nonneg (r : Q) (n : Z) :
  (0 <= r)%Q -> (0 <= weighted_score r n)%R.
Proof.
  intros Hr. unfold weighted_score.
  apply Rmult_le_pos; [|apply ln_count_nonneg].
  apply Qle_Rle in Hr. now rewrite RMicromega.Q2R_0 in Hr.
Qed.

Lemma to_book_info_score (raw : RawBook) (b : BookInfo) :
  to_book_info raw = Some b ->
  score b = weighted_score (rating b) (num_reviews b).
Proof.
  unfold to_book_info. destruct (rb_title raw) as [[|c r]|]; try discriminate.
  now intros [= <-].
Qed.

(** C5.  Every book record that book research stores for the selected
    stage carries the score [rating * ln (max num_reviews 1 + 1)], which
    is not negative when the rating is not. *)
Theorem investigador_libros_score
    (traditional_pass : list string -> list RawBook)
    (response : option string) (state : GraphState) (stage : string)
    (b : BookInfo) :
  truthy_stage (stage_being_processed state) = Some stage ->
  In b (default []
          (book_candidates (investigador_libros traditional_pass response state)
             !! stage)) ->
  score b = (Q2R (rating b) * ln (IZR (Z.max (num_reviews b) 1 + 1)))%R
  /\ ((0 <= rating b)%Q -> (0 <= score b)%R).
Proof.
  intros Hst Hin. unfold investigador_libros in Hin. rewrite Hst in Hin.
  cbn [book_candidates set_book_candidates set_book_search_iterations] in Hin.
  rewrite lookup_insert_eq in Hin. cbn [default] in Hin.
  apply list_elem_of_In, list_elem_of_omap in Hin as [raw [_ Hraw]].
  apply to_book_info_score in Hraw. rewrite Hraw. split.
  - reflexivity.
  - apply weighted_score_nonneg.
Qed.

Lemma survivors_spec (threshold : Q) (candidates : list BookInfo) (b : BookInfo) :
  In b (survivors threshold candidates)
  <-> In b candidates /\ (threshold <= rating b)%Q.
Proof.
  unfold survivors, validate_book_quality.
  now rewrite filter_In, Qle_bool_iff.
Qed.

Lemma quality_filter_unfold (threshold : Q) (candidates : list BookInfo) :
  quality_filter threshold candidates
  = if (Z.of_nat (length (survivors threshold candidates)) <? MIN_BOOKS_PER_STAGE)%Z
       && Qgt_bool threshold (35 # 10)
    then survivors (threshold - (3 # 10)) candidates
    else survivors threshold candidates.
Proof. reflexivity. Qed.



(** *** Sorting by score *)

Lemma insert_by_score_perm (x : BookInfo) (l : list BookInfo) :
  Permutation (insert_by_score x l) (x :: l).
Proof.
  induction l as [|y r IH]; cbn [insert_by_score]; [reflexivity|].
  destruct (Rlt_dec (score x) (score y)); [|reflexivity].
  rewrite IH. apply perm_swap.
Qed.

Lemma sort_by_score_perm (l : list BookInfo) : Permutation (sort_by_score l) l.
Proof.
  induction l as [|x r IH]; [reflexivity|].
  cbn [sort_by_score fold_right]. fold (sort_by_score r).
  rewrite insert_by_score_perm. now constructor.
Qed.

Lemma insert_by_score_sorted (x : BookInfo) (l : list BookInfo) :
  Sorted score_ge l -> Sorted score_ge (insert_by_score x l).
Proof.
  induction l as [|y r IH]; intros Hl; cbn [insert_by_score].
  - repeat constructor.
  - destruct (Rlt_dec (score x) (score y)) as [Hlt | Hge].
    + inversion Hl as [|? ? Hr Hy]; subst. constructor; [now apply IH|].
      destruct r as [|z r']; cbn [insert_by_score].
      * constructor. unfold score_ge. lra.
      * destruct (Rlt_dec (score x) (score z)).
        -- constructor. inversion Hy; assumption.
        -- constructor. unfold score_ge. lra.
    + constructor; [exact Hl|]. constructor. unfold score_ge. lra.
Qed.

Lemma sort_by_score_sorted (l : list BookInfo) : Sorted score_ge (sort_by_score l).
Proof.
  induction l as [|x r IH]; [constructor|].
  cbn [sort_by_score fold_right]. now apply insert_by_score_sorted.
Qed.

Lemma in_firstn {A} (n : nat) (l : list A) (x : A) :
  In x (firstn n l) -> In x l.
Proof.
  revert l. induction n as [|n IH]; intros [|y l]; cbn [firstn In];
    try tauto.
  intros [H | H]; auto.
Qed.

Lemma validador_calidad_stores (state : GraphState) (stage : string) :
  truthy_stage (stage_being_processed state) = Some stage ->
  books_by_stage (validador_calidad state) !! stage
  = Some (firstn 5
            (sort_by_score
               (quality_filter (quality_threshold state)
                  (default [] (book_candidates state !! stage))))).
Proof.
  intros Hst. unfold validador_calidad. rewrite Hst.
  cbn [books_by_stage set_books_by_stage]. apply lookup_insert_eq.
Qed.

Lemma validador_calidad_keeps_survivors (state : GraphState) (stage : string)
    (b : BookInfo) :
  truthy_stage (stage_being_processed state) = Some stage ->
  In b (default [] (books_by_stage (validador_calidad state) !! stage)) ->
  In b (quality_filter (quality_threshold state)
          (default [] (book_candidates state !! stage))).
Proof.
  intros Hst. rewrite (validador_calidad_stores _ _ Hst). cbn [default].
  intros Hin. apply in_firstn in Hin.
  eapply Permutation_in; [apply sort_by_score_perm | exact Hin].
Qed.

(** The relaxed threshold selects a book rated 3.8 while the stored
    threshold stays at 4.0. *)
Example validador_calidad_relaxes_locally :
  quality_threshold relaxing_candidates = 4%Q
  /\ In (sample_book "C2" (38 # 10) 300)
        (default []
           (books_by_stage (validador_calidad relaxing_candidates) !! "A"%string))
  /\ quality_threshold (validador_calidad relaxing_candidates) = 4%Q.
Proof.
  split; [reflexivity | split; [|reflexivity]].
  rewrite (validador_calidad_stores relaxing_candidates "A" eq_refl).
  cbn [default].
  set (kept := quality_filter _ _).
  assert (Hk : kept = [sample_book "C1" (45 # 10) 1200;
                       sample_book "C2" (38 # 10) 300]) by reflexivity.
  rewrite firstn_all2.
  - eapply Permutation_in; [symmetry; apply sort_by_score_perm|].
    rewrite Hk. right. left. reflexivity.
  - rewrite (Permutation_length (sort_by_score_perm kept)), Hk. cbn. lia.
Qed.

(** ** Gap detection *)

Lemma Qlt_bool_iff (a b : Q) : Qlt_bool a b = true <-> (a < b)%Q.
Proof.
  unfold Qlt_bool. rewrite negb_true_iff, <- not_true_iff_false, Qle_bool_iff.
  split; [apply Qnot_le_lt | apply Qlt_not_le].
Qed.

Lemma more_than_half (c n : nat) :
  (Z.of_nat c >? Z.of_nat n / 2)%Z = true <-> (n < 2 * c)%nat.
Proof.
  rewrite Z.gtb_ltb, Z.ltb_lt.
  pose proof (Z.div_mod (Z.of_nat n) 2 ltac:(lia)) as Hd.
  pose proof (Z.mod_pos_bound (Z.of_nat n) 2 ltac:(lia)) as Hm.
  lia.
Qed.

Lemma detect_gaps_spec (stage : string) (books : list BookInfo) :
  exists g1 g2 g3,
    detect_gaps stage books = g1 ++ g2 ++ g3
    /\ (few_books books ->
        g1 = [gap_few_books stage (Z.of_nat (length books))])
    /\ (~ few_books books -> g1 = [])
    /\ (some_low_rating books -> g2 = [gap_low_rating stage])
    /\ (~ some_low_rating books -> g2 = [])
    /\ (mostly_few_reviews books -> g3 = [gap_few_reviews stage])
    /\ (~ mostly_few_reviews books -> g3 = []).
Proof.
  unfold detect_gaps.
  match goal with
  | |- context [(if ?a then ?x else []) ++ (if ?b then ?y else [])
                  ++ (if ?c then ?z else [])] =>
      exists (if a then x else []), (if b then y else []), (if c then z else []);
      assert (Ha : a = true <-> few_books books);
      [| assert (Hb : b = true <-> some_low_rating books);
         [| assert (Hc : c = true <-> mostly_few_reviews books)]]
  end.
  - unfold few_books, MIN_BOOKS_PER_STAGE. rewrite Z.ltb_lt. lia.
  - rewrite truthy_filter. unfold some_low_rating.
    split; intros [b [Hin H]]; exists b; split; auto; now apply Qlt_bool_iff.
  - apply more_than_half.
  - split; [reflexivity|].
    destruct (_ <? _)%Z, (truthy_list _), (_ >? _)%Z;
      intuition (auto; discriminate).
Qed.

(** C7.  With a stage selected, gap detection appends to the knowledge
    gaps one message for each condition that holds of the books of the
    stage, in this order: fewer than two books; some book rated below
    3.8; more than half of the books with fewer than 50 reviews.  The
    earlier gaps stay in place, and the list is unchanged when no
    condition holds. *)
Theorem detector_gaps_appends (state : GraphState) (stage : string) :
  stage_being_processed state = Some stage ->
  stage <> EmptyString ->
  let books := default [] (books_by_stage state !! stage) in
  let gaps' := knowledge_gaps (detector_gaps state) in
  (exists g1 g2 g3,
      gaps' = knowledge_gaps state ++ g1 ++ g2 ++ g3
      /\ (few_books books ->
          g1 = [gap_few_books stage (Z.of_nat (length books))])
      /\ (~ few_books books -> g1 = [])
      /\ (some_low_rating books -> g2 = [gap_low_rating stage])
      /\ (~ some_low_rating books -> g2 = [])
      /\ (mostly_few_reviews books -> g3 = [gap_few_reviews stage])
      /\ (~ mostly_few_reviews books -> g3 = []))
  /\ (~ few_books books -> ~ some_low_rating books ->
      ~ mostly_few_reviews books -> gaps' = knowledge_gaps state).
Proof.
  intros Hst Hne books gaps'.
  assert (Hg : gaps' = knowledge_gaps state ++ detect_gaps stage books).
  { subst gaps' books. unfold detector_gaps. rewrite Hst.
    destruct stage as [|c r]; [congruence|]. cbn [truthy_stage].
    destruct (detect_gaps _ _) eqn:Hd; cbn [truthy_list].
    - now rewrite app_nil_r.
    - reflexivity. }
  destruct (detect_gaps_spec stage books)
    as (g1 & g2 & g3 & Heq & H1 & H1' & H2 & H2' & H3 & H3').
  split.
  - exists g1, g2, g3. rewrite Hg, Heq. repeat split; assumption.
  - intros F1 F2 F3. rewrite Hg, Heq, (H1' F1), (H2' F2), (H3' F3).
    now rewrite app_nil_r.
Qed.

Lemma detector_gaps_appends_witness :
  stage_being_processed thin_stage = Some "B"%string
  /\ "B"%string <> EmptyString
  /\ knowledge_gaps (detector_gaps thin_stage)
     = knowledge_gaps thin_stage ++ [gap_few_books "B" 1].
Proof.
  assert (H1 : stage_being_processed thin_stage = Some "B"%string)
    by reflexivity.
  assert (H2 : "B"%string <> EmptyString) by discriminate.
  split; [exact H1 | split; [exact H2|]].
  assert (Hb : default [] (books_by_stage thin_stage !! "B"%string)
               = [sample_book "B1" (41 # 10) 80]) by reflexivity.
  destruct (detector_gaps_appends thin_stage "B" H1 H2)
    as [(g1 & g2 & g3 & Heq & Hfew & _ & _ & Hrated & _ & Hreviews) _].
  rewrite Hb in Hfew, Hrated, Hreviews.
  rewrite Heq, Hfew, Hrated, Hreviews.
  - reflexivity.
  - unfold mostly_few_reviews. cbn [List.filter length]. 
    change (num_reviews (sample_book "B1" (41 # 10) 80) <? 50)%Z with false.
    cbn [length]. lia.
  - intros (b & [<- | []] & Hlow). revert Hlow.
    unfold Qlt. cbn. lia.
  - unfold few_books. cbn [length]. lia.
Defined.

(** ** The book parser on generated blocks *)

Section BlockRoundTrip.

Local Open Scope string_scope.

(** *** Strings *)

























(** *** Numerals *)













(** *** The year *)


(** *** Lines *)






(** *** What each line of a block does to the parser *)














End BlockRoundTrip.


Lemma investigador_libros_score_witness :
  truthy_stage (stage_being_processed searching_stage_A) = Some "A"%string
  /\ In clean_code_book
        (default []
           (book_candidates
              (investigador_libros (fun _ => []) clean_code_answer
                 searching_stage_A) !! "A"%string))
  /\ score clean_code_book
     = (Q2R (rating clean_code_book)
        * ln (IZR (Z.max (num_reviews clean_code_book) 1 + 1)))%R
  /\ ((0 <= rating clean_code_book)%Q -> (0 <= score clean_code_book)%R).
Proof.
  assert (H1 : truthy_stage (stage_being_processed searching_stage_A)
               = Some "A"%string) by reflexivity.
  assert (H2 : In clean_code_book
                 (default []
                    (book_candidates
                       (investigador_libros (fun _ => []) clean_code_answer
                          searching_stage_A) !! "A"%string))).
  { left. reflexivity. }
  split; [exact H1 | split; [exact H2|]].
  exact (investigador_libros_score (fun _ => []) clean_code_answer
           searching_stage_A "A" clean_code_book H1 H2).
Defined.


(** The other conditions of the amended statement are needed as well: the
    marker is removed wherever it occurs, padding is stripped, and a line
    break ends the field. *)
Example parse_block_quoted_marker :
  map rb_title (parse_books_from_text (fun _ => []) (render_block quoted_marker))
  = [Some "The  A Study"%string].
Proof. vm_compute. reflexivity. Qed.

Example parse_block_padded_title :
  map rb_title (parse_books_from_text (fun _ => []) (render_block padded_title))
  = [Some "Dune"%string].
Proof. vm_compute. reflexivity. Qed.

Example parse_block_two_line_reason :
  map rb_reason
    (parse_books_from_text (fun _ => []) (render_block two_line_reason))
  = [Some "Deep."%string].
Proof. vm_compute. reflexivity. Qed.

(** * The workflow as a whole

    Properties of the nodes beyond the documented claims, and of the
    sessions the graph allows. *)

(** ** Counters of a session *)

(** ** Sessions: what the executor can and cannot reach *)

Section Reach.

Variable traditional_pass : list string -> list RawBook.
Variable render_document : GraphState -> string.
Variable disclaimer : string.

Local Abbreviation run := (run_node traditional_pass render_document disclaimer).
Local Abbreviation reach := (reachable traditional_pass render_document disclaimer).

Lemma run_counters_loop (n : Node) (response : option string) (state : GraphState) :
  match n with
  | n_selector_etapa | n_investigador_libros | n_validador_calidad
  | n_detector_gaps | n_decision_cobertura | n_analizador_tema
  | n_evaluador_nivel => True
  | _ => False
  end ->
  validation_iterations (run n response state) = validation_iterations state
  /\ plan_refinement_iterations (run n response state)
     = plan_refinement_iterations state.
Proof.
  destruct n; try contradiction; intros _; cbn [run_node];
    unfold analizador_tema, evaluador_nivel, selector_etapa,
      investigador_libros, validador_calidad, detector_gaps;
    node_cases; auto.
Qed.

Lemma session_counters_invariant (n : Node) (state : GraphState) :
  reach n state -> session_counters n state.
Proof.
  induction 1 as [|n n' response state state' Hreach IH Hstep].
  - cbn. auto.
  - unfold step in Hstep.
    destruct n; cbn [route run_node] in Hstep.
    + injection Hstep as <- <-.
      destruct (run_counters_loop n_analizador_tema response state I) as [Hv Hr].
      cbn [run_node] in Hv, Hr. cbn in IH |- *. rewrite Hv, Hr. exact IH.
    + injection Hstep as <- <-.
      destruct (run_counters_loop n_evaluador_nivel response state I) as [Hv Hr].
      cbn [run_node] in Hv, Hr. cbn in IH |- *. rewrite Hv, Hr. exact IH.
    + injection Hstep as <- <-. cbn in IH. destruct IH as [Hv Hr].
      unfold session_counters.
      assert (Hr' : plan_refinement_iterations (estructurador_plan response state)
                    = 1%Z).
      { destruct response; cbn; [rewrite Hr|]; reflexivity. }
      assert (Hv' : validation_iterations (estructurador_plan response state)
                    = 0%Z).
      { unfold estructurador_plan. destruct response; cbn; exact Hv. }
      rewrite Hr', Hv'. split; [now left | reflexivity].
    + injection Hstep as <- <-.
      destruct (run_counters_loop n_selector_etapa response state I) as [Hv Hr].
      cbn [run_node] in Hv, Hr. unfold session_counters in IH |- *.
      rewrite Hv, Hr. exact IH.
    + injection Hstep as <- <-. cbn in IH. destruct IH as [Hv Hr].
      unfold session_counters.
      assert (Hr' : plan_refinement_iterations (replanificador response state)
                    = 2%Z).
      { unfold replanificador. destruct response; cbn; rewrite Hr; reflexivity. }
      assert (Hv' : validation_iterations (replanificador response state)
                    = 1%Z).
      { unfold replanificador. destruct response; cbn; exact Hv. }
      rewrite Hr', Hv'. split; [now right | reflexivity].
    + injection Hstep as <- <-.
      destruct (run_counters_loop n_investigador_libros response state I)
        as [Hv Hr].
      cbn [run_node] in Hv, Hr. unfold session_counters in IH |- *.
      rewrite Hv, Hr. exact IH.
    + injection Hstep as <- <-.
      destruct (run_counters_loop n_validador_calidad response state I)
        as [Hv Hr].
      cbn [run_node] in Hv, Hr. unfold session_counters in IH |- *.
      rewrite Hv, Hr. exact IH.
    + destruct (run_counters_loop n_detector_gaps response state I) as [Hv Hr].
      cbn [run_node] in Hv, Hr. unfold session_counters in IH.
      destruct (decision_busqueda_libros _); injection Hstep as <- <-;
        unfold session_counters; rewrite Hv, Hr; exact IH.
    + unfold session_counters in IH. unfold decision_cobertura_etapas in Hstep.
      destruct (truthy_list _); injection Hstep as <- <-;
        unfold session_counters; cbn; exact IH.
    + unfold session_counters in IH. destruct IH as [Hr Hv].
      set (s1 := validador_global response state) in *.
      assert (Hr' : plan_refinement_iterations s1
                    = plan_refinement_iterations state).
      { unfold s1, validador_global. destruct response; reflexivity. }
      assert (Hv' : validation_iterations s1
                    = (validation_iterations state + 1)%Z).
      { unfold s1, validador_global. destruct response; reflexivity. }
      unfold decision_validacion in Hstep.
      rewrite Hr', Hv' in Hstep.
      unfold MAX_VALIDATION_CYCLES, MAX_PLAN_REFINEMENTS in Hstep.
      destruct (Z.geb_spec (validation_iterations state + 1) 5) as [Hge | Hlt];
        [lia|].
      destruct (Z.ltb_spec (plan_refinement_iterations state) 2) as [Hlt2 | Hge2].
      * destruct (existsb _ _), (truthy_list _); cbn in Hstep;
          injection Hstep as <- <-; unfold session_counters;
          rewrite Hr', Hv'; lia.
      * rewrite !andb_false_r in Hstep. injection Hstep as <- <-.
        unfold session_counters. rewrite Hr', Hv'. lia.
    + discriminate Hstep.
    + discriminate Hstep.
Qed.

End Reach.

Section Failing.

Variable traditional_pass : list string -> list RawBook.
Variable render_document : GraphState -> string.
Variable disclaimer : string.

Local Abbreviation run := (run_node traditional_pass render_document disclaimer).
Local Abbreviation step' := (step traditional_pass render_document disclaimer).
Local Abbreviation reach := (reachable traditional_pass render_document disclaimer).
Local Abbreviation failing_run := (run_failing traditional_pass render_document disclaimer).

Lemma starved_insert_books (state : GraphState) (stage : string) :
  starved state ->
  starved (set_books_by_stage (<[stage := []]> (books_by_stage state)) state).
Proof.
  intros [Hb Hc]. split; cbn [books_by_stage book_candidates set_books_by_stage].
  - intros k v. destruct (decide (stage = k)) as [-> | Hne].
    + rewrite lookup_insert_eq. now intros [= <-].
    + rewrite lookup_insert_ne by exact Hne. apply Hb.
  - exact Hc.
Qed.

Lemma create_default_stages_nonempty (topic0 level : string) :
  create_default_stages topic0 level <> [].
Proof.
  intros H. pose proof (create_default_stages_size topic0 level) as Hs.
  rewrite H in Hs. destruct (String.eqb level "beginner"); discriminate.
Qed.

Lemma stages_below_minimum_starved (state : GraphState) :
  starved state -> study_plan_structure state <> [] ->
  truthy_list (stages_below_minimum state) = true.
Proof.
  intros [Hb _] Hp. unfold stages_below_minimum, od_keys.
  destruct (study_plan_structure state) as [|[k info] r]; [contradiction|].
  cbn [map fst List.filter].
  assert (Hk : (num_books (books_by_stage state) k <? MIN_BOOKS_PER_STAGE)%Z = true).
  { unfold num_books. destruct (books_by_stage state !! k) as [v|] eqn:E.
    - now rewrite (Hb _ _ E).
    - reflexivity. }
  now rewrite Hk.
Qed.

Lemma quality_filter_nil (threshold : Q) : quality_filter threshold [] = [].
Proof. unfold quality_filter. cbn. now destruct (Qgt_bool _ _). Qed.

Lemma failing_step (n : Node) (state : GraphState) :
  before_validation n = true -> starved state -> planned n state ->
  exists n' state',
    step' n None state = (state', Some n')
    /\ before_validation n' = true /\ starved state' /\ planned n' state'.
Proof.
  intros Hn Hs Hp. unfold step.
  destruct n; try discriminate Hn; cbn [run_node route].
  - eexists _, _. split; [reflexivity|]. repeat split; apply Hs.
  - eexists _, _. split; [reflexivity|]. split; [reflexivity|].
    split; [|exact I].
    unfold evaluador_nivel. node_cases; exact Hs.
  - eexists _, _. split; [reflexivity|]. split; [reflexivity|]. split.
    + exact Hs.
    + cbn. apply create_default_stages_nonempty.
  - eexists _, _. split; [reflexivity|]. split; [reflexivity|].
    unfold selector_etapa. node_cases; (split; [exact Hs | exact Hp]).
  - eexists _, _. split; [reflexivity|]. split; [reflexivity|].
    unfold investigador_libros.
    destruct (truthy_stage _) as [stage|]; [|split; assumption].
    split; [|exact Hp]. destruct Hs as [Hb Hc]. split; [exact Hb|].
    cbn [book_candidates set_book_candidates set_book_search_iterations
         search_books_for_topic omap].
    intros k v. destruct (decide (stage = k)) as [-> | Hne].
    + rewrite lookup_insert_eq. now intros [= <-].
    + rewrite lookup_insert_ne by exact Hne. apply Hc.
  - eexists _, _. split; [reflexivity|]. split; [reflexivity|].
    unfold validador_calidad.
    destruct (truthy_stage _) as [stage|]; [|split; assumption].
    split; [|exact Hp].
    assert (Hcand : default [] (book_candidates state !! stage) = []).
    { destruct Hs as [_ Hc].
      destruct (book_candidates state !! stage) as [v|] eqn:E; [|reflexivity].
      exact (Hc _ _ E). }
    rewrite Hcand, quality_filter_nil. now apply starved_insert_books.
  - set (s1 := detector_gaps state).
    assert (H1 : starved s1 /\ study_plan_structure s1 <> []).
    { unfold s1, detector_gaps. node_cases; (split; [exact Hs | exact Hp]). }
    destruct (decision_busqueda_libros s1);
      eexists _, _; (split; [reflexivity|]); (split; [reflexivity|]); exact H1.
  - unfold decision_cobertura_etapas.
    rewrite (stages_below_minimum_starved state Hs Hp).
    eexists _, _. split; [reflexivity|]. split; [reflexivity|].
    split; [exact Hs | exact Hp].
Qed.

Lemma run_failing_goes_on (k : nat) (n : Node) (state : GraphState) :
  before_validation n = true -> starved state -> planned n state ->
  exists n' state',
    failing_run k n state = Some (n', state') /\ before_validation n' = true.
Proof.
  revert n state. induction k as [|k IH]; intros n state Hn Hs Hp.
  - exists n, state. auto.
  - destruct (failing_step n state Hn Hs Hp) as (n1 & s1 & Hstep & Hn1 & Hs1 & Hp1).
    cbn [run_failing]. rewrite Hstep. now apply IH.
Qed.

(** X1.  With a collaborator that fails at every call the run never reaches
    an output node, nor global validation: after any number of steps it is
    still between topic analysis and the coverage decision. *)
Theorem failing_collaborator_never_ends (topic0 level : string) (k : nat) :
  exists n state,
    failing_run k n_analizador_tema (initialize_state topic0 level)
    = Some (n, state)
    /\ before_validation n = true.
Proof.
  apply run_failing_goes_on; [reflexivity | | exact I].
  split; intros k' v; cbn; rewrite lookup_empty; discriminate.
Qed.

(** X2.  In a session the forced output is never produced: global validation
    runs at most twice and the plan is refined at most twice, so the limit
    of five validations is out of reach. Replanning runs at most once, after
    the first validation: plan structuring has already used one of the two
    refinements. *)
Theorem forced_output_unreachable (n : Node) (state : GraphState) :
  reach n state ->
  n <> n_salida_forzada
  /\ (0 <= validation_iterations state <= 2)%Z
  /\ (0 <= plan_refinement_iterations state <= 2)%Z
  /\ (n = n_replanificador ->
      validation_iterations state = 1%Z
      /\ plan_refinement_iterations state = 1%Z).
Proof.
  intros Hreach.
  pose proof (session_counters_invariant _ _ _ n state Hreach) as H.
  destruct n; cbn in H; try contradiction;
    (split; [discriminate|]); (split; [lia|]); (split; [lia|]);
    first [discriminate | intros _; exact H].
Qed.

End Failing.

(** *** Replanning *)

Lemma listed_spec (k : string) (stages : list string) :
  listed k stages = true <-> In k stages.
Proof.
  unfold listed. rewrite existsb_exists. split.
  - intros [x [Hx He]]. apply String.eqb_eq in He. now subst.
  - intros H. exists k. split; [exact H | apply String.eqb_refl].
Qed.

Lemma clear_insufficient_lookup (stages : list string)
    (bbs : gmap string (list BookInfo)) (k : string) :
  clear_insufficient stages bbs !! k
  = if listed k stages && (num_books bbs k <? 2)%Z then None else bbs !! k.
Proof.
  revert bbs. induction stages as [|s r IH]; intros bbs; [reflexivity|].
  unfold clear_insufficient. cbn [fold_left]. fold (clear_insufficient r).
  rewrite IH. unfold listed. cbn [existsb]. fold (listed k r).
  destruct (String.eqb_spec k s) as [<- | Hne]; cbn [orb].
  - destruct (num_books bbs k <? 2)%Z eqn:Hk.
    + unfold num_books at 1. rewrite lookup_delete_eq. cbn [default length].
      change (Z.of_nat 0 <? 2)%Z with true.
      destruct (listed k r); cbn [andb]; rewrite ?lookup_delete_eq; reflexivity.
    + cbn [andb]. rewrite Hk, andb_false_r. reflexivity.
  - assert (Hsame : (if (num_books bbs s <? 2)%Z then delete s bbs else bbs) !! k
                    = bbs !! k).
    { destruct (_ <? _)%Z; [apply lookup_delete_ne; congruence | reflexivity]. }
    assert (Hnum : num_books
                     (if (num_books bbs s <? 2)%Z then delete s bbs else bbs) k
                   = num_books bbs k).
    { unfold num_books at 1 3. now rewrite Hsame. }
    now rewrite Hnum, Hsame.
Qed.

Lemma replanificador_books_lookup (text : string) (state : GraphState)
    (k : string) :
  books_by_stage (replanificador (Some text) state) !! k
  = if listed k (od_keys (study_plan_structure state))
       && (num_books (books_by_stage state) k <? 2)%Z
    then None else books_by_stage state !! k.
Proof.
  unfold replanificador.
  cbn [books_by_stage set_books_by_stage study_plan_structure
       set_all_stages_covered set_validation_feedback
       set_plan_refinement_iterations].
  apply clear_insufficient_lookup.
Qed.

(** X3.  Replanning with an answer keeps the book list of every stage that
    has at least two books or is no stage of the plan, and removes the entry
    of every stage of the plan that has fewer; afterwards no stage of the
    plan is listed with fewer than two books. Without an answer the books
    are untouched. *)
Theorem replanificador_clears_thin_stages (response : option string)
    (state : GraphState) (k : string) :
  let after := books_by_stage (replanificador response state) in
  (response = None -> after = books_by_stage state)
  /\ (response <> None ->
      (In k (od_keys (study_plan_structure state)) ->
       (num_books (books_by_stage state) k < 2)%Z -> after !! k = None)
      /\ ((~ In k (od_keys (study_plan_structure state))
           \/ (2 <= num_books (books_by_stage state) k)%Z) ->
          after !! k = books_by_stage state !! k)
      /\ (forall books, In k (od_keys (study_plan_structure state)) ->
            after !! k = Some books -> (2 <= length books)%nat)).
Proof.
  intros after. subst after. split.
  - intros ->. reflexivity.
  - intros Hr. destruct response as [text|]; [|contradiction].
    rewrite replanificador_books_lookup. split; [|split].
    + intros Hin Hlt. apply listed_spec in Hin. rewrite Hin.
      now apply Z.ltb_lt in Hlt as ->.
    + intros [Hnin | Hge].
      * destruct (listed _ _) eqn:E; [|reflexivity].
        apply listed_spec in E. contradiction.
      * apply Z.ltb_ge in Hge. now rewrite Hge, andb_false_r.
    + intros books Hin. apply listed_spec in Hin. rewrite Hin. cbn [andb].
      destruct (num_books _ k <? 2)%Z eqn:Hk; [discriminate|].
      intros Hb. apply Z.ltb_ge in Hk. unfold num_books in Hk.
      rewrite Hb in Hk. cbn in Hk. lia.
Qed.

Section Coverage.

Variable traditional_pass : list string -> list RawBook.
Variable render_document : GraphState -> string.
Variable disclaimer : string.

Local Abbreviation reach := (reachable traditional_pass render_document disclaimer).
Local Abbreviation step' := (step traditional_pass render_document disclaimer).

Lemma below_minimum_ext (s1 s2 : GraphState) :
  study_plan_structure s1 = study_plan_structure s2 ->
  books_by_stage s1 = books_by_stage s2 ->
  has_stage_below_minimum s1 -> has_stage_below_minimum s2.
Proof.
  unfold has_stage_below_minimum. intros <- <-. auto.
Qed.

Lemma reach_validador_global (state : GraphState) :
  reach n_validador_global state -> ~ has_stage_below_minimum state.
Proof.
  inversion 1 as [|n n' response s0 s1 Hreach Hstep]; subst.
  unfold step in Hstep.
  destruct n; cbn [route] in Hstep; try discriminate Hstep.
  - destruct (decision_busqueda_libros _); discriminate Hstep.
  - cbn [run_node] in Hstep. unfold decision_cobertura_etapas in Hstep.
    destruct (truthy_list (stages_below_minimum s0)) eqn:Ht;
      [discriminate Hstep|].
    injection Hstep as Hs. subst state. intros Hb.
    apply (below_minimum_ext _ s0) in Hb; [|reflexivity..].
    apply stages_below_minimum_spec in Hb. congruence.
  - destruct (decision_validacion _); discriminate Hstep.
Qed.

Lemma reach_replanificador (state : GraphState) :
  reach n_replanificador state -> ~ has_stage_below_minimum state.
Proof.
  inversion 1 as [|n n' response s0 s1 Hreach Hstep]; subst.
  unfold step in Hstep.
  destruct n; cbn [route] in Hstep; try discriminate Hstep.
  - destruct (decision_busqueda_libros _); discriminate Hstep.
  - unfold decision_cobertura_etapas in Hstep.
    destruct (truthy_list _); discriminate Hstep.
  - cbn [run_node] in Hstep.
    assert (Hs : state = validador_global response s0).
    { destruct (decision_validacion _); congruence. }
    subst state. intros Hb. apply (reach_validador_global s0 Hreach).
    apply (below_minimum_ext _ s0) in Hb; [exact Hb | |];
      unfold validador_global; destruct response; reflexivity.
Qed.

(** X4.  In a session global validation and replanning only ever run on a
    plan of which every stage has at least two books. So the validation
    decision never asks for a new plan on account of thin stages, and
    replanning removes no book. *)
Theorem validation_sees_covered_plan (n : Node) (state : GraphState) :
  reach n state ->
  n = n_validador_global \/ n = n_replanificador ->
  ~ has_stage_below_minimum state
  /\ (forall response,
        stages_below_minimum (validador_global response state) = [])
  /\ (forall response,
        books_by_stage (replanificador response state) = books_by_stage state).
Proof.
  intros Hreach Hn.
  assert (Hb : ~ has_stage_below_minimum state).
  { destruct Hn as [-> | ->];
      [now apply reach_validador_global | now apply reach_replanificador]. }
  assert (Hnil : stages_below_minimum state = []).
  { destruct (stages_below_minimum state) eqn:E; [reflexivity|].
    exfalso. apply Hb, stages_below_minimum_spec. now rewrite E. }
  split; [exact Hb | split].
  - intros response. rewrite <- Hnil.
    unfold validador_global. destruct response; reflexivity.
  - intros response. destruct response as [text|]; [|reflexivity].
    apply map_eq. intros k. rewrite replanificador_books_lookup.
    destruct (listed _ _) eqn:Hin; [|reflexivity].
    destruct (Z.ltb_spec (num_books (books_by_stage state) k) 2) as [Hlt|];
      [|reflexivity].
    exfalso. apply Hb. exists k. split; [now apply listed_spec | exact Hlt].
Qed.

End Coverage.

(** *** The selection of the best books *)

Lemma sorted_firstn {A} (R : A -> A -> Prop) (n : nat) (l : list A) :
  Sorted R l -> Sorted R (firstn n l).
Proof.
  revert l. induction n as [|n IH]; intros [|x l] H; cbn [firstn];
    try constructor.
  - apply IH. now inversion H.
  - inversion H as [|? ? Hs Hh]; subst.
    destruct l as [|y l]; destruct n; cbn [firstn]; constructor.
    now inversion Hh.
Qed.

Lemma strongly_sorted_app {A} (R : A -> A -> Prop) (l1 l2 : list A) :
  StronglySorted R (l1 ++ l2) ->
  forall b c, In b l1 -> In c l2 -> R b c.
Proof.
  induction l1 as [|x l IH]; intros Hs b c Hb Hc; [contradiction|].
  cbn [app] in Hs. inversion Hs as [|? ? Hs' Hall]; subst.
  destruct Hb as [<- | Hb]; [|now apply IH].
  rewrite List.Forall_forall in Hall. apply Hall. apply in_or_app. now right.
Qed.

Lemma score_ge_trans : Relations_1.Transitive score_ge.
Proof. intros a b c Hab Hbc. unfold score_ge in *. lra. Qed.

(** X5.  Quality validation stores for the selected stage at most five
    books, best score first, all of them candidates that passed the filter;
    every candidate that passed but was left out scores no higher than any
    book kept; and the books of the other stages are not touched. *)
Theorem validador_calidad_keeps_best (state : GraphState) (stage : string) :
  truthy_stage (stage_being_processed state) = Some stage ->
  let passed :=
    quality_filter (quality_threshold state)
      (default [] (book_candidates state !! stage)) in
  exists kept left_out,
    books_by_stage (validador_calidad state) !! stage = Some kept
    /\ (length kept <= 5)%nat
    /\ length kept = Nat.min 5 (length passed)
    /\ Sorted score_ge kept
    /\ Permutation (kept ++ left_out) passed
    /\ (forall b c, In b kept -> In c left_out -> (score c <= score b)%R)
    /\ (forall other, other <> stage ->
          books_by_stage (validador_calidad state) !! other
          = books_by_stage state !! other).
Proof.
  intros Hst passed.
  set (sorted := sort_by_score passed).
  exists (firstn 5 sorted), (skipn 5 sorted).
  assert (Hsorted : Sorted score_ge sorted) by apply sort_by_score_sorted.
  assert (Hperm : Permutation sorted passed) by apply sort_by_score_perm.
  split; [exact (validador_calidad_stores state stage Hst)|].
  split; [apply firstn_le_length|].
  split; [rewrite length_firstn; now rewrite (Permutation_length Hperm)|].
  split; [now apply sorted_firstn|].
  split; [now rewrite firstn_skipn|].
  split.
  - intros b c Hb Hc.
    apply Sorted_StronglySorted in Hsorted; [|exact score_ge_trans].
    rewrite <- (firstn_skipn 5 sorted) in Hsorted.
    exact (strongly_sorted_app _ _ _ Hsorted b c Hb Hc).
  - intros other Hne. unfold validador_calidad. rewrite Hst.
    cbn [books_by_stage set_books_by_stage]. now apply lookup_insert_ne.
Qed.

(** *** Stage selection *)

Lemma find_first {A} (f : A -> bool) (l : list A) (x : A) :
  List.find f l = Some x ->
  exists before rest,
    l = before ++ x :: rest /\ f x = true
    /\ forall y, In y before -> f y = false.
Proof.
  induction l as [|a l IH]; cbn [List.find]; [discriminate|].
  destruct (f a) eqn:Ha.
  - intros [= <-]. exists [], l. repeat split; auto. intros y [].
  - intros H. destruct (IH H) as (before & rest & -> & Hx & Hb).
    exists (a :: before), rest. repeat split; auto.
    intros y [<- | Hy]; auto.
Qed.

Lemma find_none {A} (f : A -> bool) (l : list A) :
  List.find f l = None <-> forall y, In y l -> f y = false.
Proof.
  induction l as [|a l IH]; cbn [List.find].
  - split; [intros _ y [] | reflexivity].
  - destruct (f a) eqn:Ha.
    + split; [discriminate | intros H; specialize (H a (or_introl eq_refl)); congruence].
    + rewrite IH. split; [intros H y [<- | Hy]; auto | intros H y Hy; apply H; now right].
Qed.

Lemma needs_books_spec (bbs : gmap string (list BookInfo)) (k : string) :
  needs_books bbs k = true <-> (num_books bbs k < 2)%Z.
Proof.
  unfold needs_books, num_books. destruct (bbs !! k); cbn.
  - apply Z.ltb_lt.
  - split; [lia | reflexivity].
Qed.

(** X6.  Stage selection picks the first stage of the plan, in plan order,
    that has fewer than two books: every stage before it has at least two.
    It selects no stage, and marks all stages as covered, exactly when no
    stage has fewer than two books -- provided no stage has the empty name,
    which the selection treats as no stage. *)
Theorem selector_etapa_first_uncovered (state : GraphState) :
  ~ In EmptyString (od_keys (study_plan_structure state)) ->
  let after := selector_etapa state in
  (forall next,
      stage_being_processed after = Some next ->
      exists before rest,
        od_keys (study_plan_structure state) = before ++ next :: rest
        /\ (num_books (books_by_stage state) next < 2)%Z
        /\ forall s, In s before -> (2 <= num_books (books_by_stage state) s)%Z)
  /\ (stage_being_processed after = None
      <-> ~ has_stage_below_minimum state)
  /\ (stage_being_processed after = None -> all_stages_covered after = true)
  /\ study_plan_structure after = study_plan_structure state
  /\ books_by_stage after = books_by_stage state.
Proof.
  intros Hne after. subst after. unfold selector_etapa.
  destruct (List.find _ _) as [s|] eqn:Hfind.
  - destruct (find_first _ _ _ Hfind) as (before & rest & Hk & Hs & Hb).
    assert (Hs0 : s <> EmptyString).
    { intros ->. apply Hne. rewrite Hk. apply in_or_app. right. now left. }
    destruct s as [|c r]; [contradiction|]. cbn [truthy_stage].
    assert (Hbelow : has_stage_below_minimum state).
    { exists (String c r). split.
      - rewrite Hk. apply in_or_app. right. now left.
      - now apply needs_books_spec. }
    split; [|split; [|split; [|split]]].
    + intros next Hnext.
      assert (next = String c r) as ->
        by (destruct (negb _); cbn in Hnext; congruence).
      exists before, rest. split; [exact Hk|]. split.
      * now apply needs_books_spec.
      * intros s Hin. specialize (Hb s Hin).
        destruct (Z.ltb_spec (num_books (books_by_stage state) s) 2) as [Hlt|];
          [|lia].
        apply needs_books_spec in Hlt. congruence.
    + split; [destruct (negb _); discriminate | contradiction].
    + destruct (negb _); discriminate.
    + now destruct (negb _).
    + now destruct (negb _).
  - cbn [truthy_stage]. split; [|split; [|split; [|split]]];
      try reflexivity; try discriminate.
    split; [|reflexivity]. intros _ (s & Hin & Hlt).
    apply needs_books_spec in Hlt.
    rewrite (proj1 (find_none _ _) Hfind s Hin) in Hlt. discriminate.
Qed.

(** *** The search loop of one stage *)

Lemma search_round_counts (traditional_pass : list string -> list RawBook)
    (response : option string) (state : GraphState) (stage : string) :
  truthy_stage (stage_being_processed state) = Some stage ->
  let after := search_round traditional_pass response state in
  truthy_stage (stage_being_processed after) = Some stage
  /\ book_search_iterations after = (book_search_iterations state + 1)%Z.
Proof.
  intros Hst. unfold search_round, investigador_libros. rewrite Hst.
  set (s1 := set_book_search_iterations _ _).
  assert (H1 : truthy_stage (stage_being_processed s1) = Some stage) by exact Hst.
  unfold validador_calidad. rewrite H1.
  set (s2 := set_books_by_stage _ _).
  assert (H2 : truthy_stage (stage_being_processed s2) = Some stage) by exact H1.
  unfold detector_gaps. rewrite H2.
  destruct (truthy_list _); split; first [exact H2 | reflexivity].
Qed.

(** X7.  A stage is searched at most three times in a row: whatever the
    collaborator answers, after a third round the decision accepts the books
    found, provided the counter was not negative. *)
Theorem book_search_stops_after_three
    (traditional_pass : list string -> list RawBook)
    (r1 r2 r3 : option string) (state : GraphState) (stage : string) :
  truthy_stage (stage_being_processed state) = Some stage ->
  (0 <= book_search_iterations state)%Z ->
  decision_busqueda_libros
    (search_round traditional_pass r3
       (search_round traditional_pass r2
          (search_round traditional_pass r1 state)))
  = aceptar_libros_actuales.
Proof.
  intros Hst Hc.
  destruct (search_round_counts traditional_pass r1 state stage Hst) as [H1 C1].
  destruct (search_round_counts traditional_pass r2 _ stage H1) as [H2 C2].
  destruct (search_round_counts traditional_pass r3 _ stage H2) as [H3 C3].
  unfold decision_busqueda_libros. rewrite H3, C3, C2, C1.
  unfold MAX_BOOK_SEARCHES_PER_STAGE.
  destruct (Z.geb_spec (book_search_iterations state + 1 + 1 + 1) 3);
    [reflexivity | lia].
Qed.

(** *** Level evaluation *)

Lemma filter_filter {A} (f : A -> bool) (l : list A) :
  List.filter f (List.filter f l) = List.filter f l.
Proof.
  induction l as [|a l IH]; [reflexivity|]. cbn [List.filter].
  destruct (f a) eqn:Ha; [|exact IH]. cbn [List.filter]. now rewrite Ha, IH.
Qed.

Lemma valid_level_cases (level : string) :
  existsb (String.eqb level) valid_levels = true
  <-> level = "beginner"%string \/ level = "intermediate"%string
      \/ level = "advanced"%string.
Proof.
  unfold valid_levels. cbn [existsb]. rewrite !orb_true_iff, !String.eqb_eq.
  intuition discriminate.
Qed.

(** X8.  Level evaluation leaves a state whose level is one of the three
    known levels; a known level is kept and any other becomes "beginner";
    the gaps it leaves are gaps it found, in their order, and for a beginner
    all of them; and running it a second time changes nothing. *)
Theorem evaluador_nivel_normalises (state : GraphState) :
  let after := evaluador_nivel state in
  In (user_level after) valid_levels
  /\ (In (user_level state) valid_levels -> user_level after = user_level state)
  /\ (~ In (user_level state) valid_levels ->
      user_level after = "beginner"%string)
  /\ (user_level after = "beginner"%string ->
      knowledge_gaps after = knowledge_gaps state)
  /\ (exists keep, knowledge_gaps after = List.filter keep (knowledge_gaps state))
  /\ evaluador_nivel after = after.
Proof.
  intros after. subst after. unfold evaluador_nivel.
  cbv zeta.
  set (level := if String.eqb (user_level state) "" 
                   || negb (existsb (String.eqb (user_level state)) valid_levels)
                then "beginner"%string else user_level state).
  assert (Hvalid : level = "beginner"%string \/ level = "intermediate"%string
                   \/ level = "advanced"%string).
  { subst level.
    destruct (String.eqb (user_level state) "") eqn:He; cbn [orb]; [now left|].
    destruct (existsb _ valid_levels) eqn:Hv; cbn [negb]; [|now left].
    now apply valid_level_cases. }
  assert (Hkeep : In (user_level state) valid_levels -> level = user_level state).
  { intros Hin. subst level.
    assert (Hv : existsb (String.eqb (user_level state)) valid_levels = true).
    { apply existsb_exists. exists (user_level state).
      split; [exact Hin | apply String.eqb_refl]. }
    rewrite Hv, orb_false_r.
    destruct (String.eqb_spec (user_level state) "") as [E|]; [|reflexivity].
    rewrite E in Hin. cbn in Hin. intuition discriminate. }
  assert (Helse : ~ In (user_level state) valid_levels ->
                  level = "beginner"%string).
  { intros Hnin. subst level.
    destruct (existsb _ valid_levels) eqn:Hv; [|now rewrite orb_true_r].
    exfalso. apply Hnin. apply existsb_exists in Hv as [x [Hx He]].
    apply String.eqb_eq in He. now subst. }
  clearbody level.
  assert (Hin : In level valid_levels).
  { destruct Hvalid as [-> | [-> | ->]]; cbn; auto. }
  assert (Hrun : forall (keep : string -> bool) gaps,
             user_level (set_knowledge_gaps gaps (set_user_level level state))
             = level).
  { reflexivity. }
  destruct Hvalid as [-> | [-> | ->]]; cbn [String.eqb Ascii.eqb Bool.eqb].
  - repeat split; auto.
    exists (fun _ => true). cbn. clear.
    induction (knowledge_gaps state) as [|g l IH]; [reflexivity|].
    cbn. now rewrite <- IH.
  - repeat split; auto; try discriminate.
    + eexists. reflexivity.
    + cbn. now rewrite filter_filter.
  - repeat split; auto; try discriminate.
    + eexists. reflexivity.
    + cbn. now rewrite filter_filter.
Qed.

(** *** Topic analysis *)

(** X9.  The analysis never leaves the list of knowledge gaps empty: a
    failed call gives the three default areas; an answer gives the stripped
    lines that mention a gap, a lack or something missing, when the answer
    mentions a gap at all and has such a line, and the single entry
    "Complete coverage of <topic>" otherwise. An answer also replaces the
    feedback history by one entry. *)
Theorem analizador_tema_gaps (response : option string) (state : GraphState) :
  let after := analizador_tema response state in
  knowledge_gaps after <> []
  /\ (response = None ->
      length (knowledge_gaps after) = 3%nat
      /\ validation_feedback after = validation_feedback state)
  /\ (forall text, response = Some text ->
      length (validation_feedback after) = 1%nat
      /\ (knowledge_gaps after = ["Complete coverage of " ++ topic state]%string
          \/ (mentions text "gap"
              /\ knowledge_gaps after
                 = map PyStr.strip
                     (List.filter mentions_gap (PyStr.split newline text)))))
  /\ topic after = topic state
  /\ user_level after = user_level state.
Proof.
  intros after. subst after. destruct response as [text|]; cbn.
  - set (found := if PyStr.contains (PyStr.lower text) "gap" then _ else _).
    assert (Hfound : found = []
                     \/ (mentions text "gap"
                         /\ found = map PyStr.strip
                              (List.filter mentions_gap
                                 (PyStr.split newline text)))).
    { subst found. destruct (PyStr.contains (PyStr.lower text) "gap") eqn:Hc.
      - right. split; [|reflexivity]. unfold mentions.
        now apply contains_spec.
      - now left. }
    clearbody found.
    destruct found as [|g found]; cbn.
    + split; [discriminate|]. split; [discriminate|].
      split; [|split; reflexivity].
      intros t Ht. injection Ht as <-. split; [reflexivity | now left].
    + split; [discriminate|]. split; [discriminate|].
      split; [|split; reflexivity].
      intros t Ht. injection Ht as <-. split; [reflexivity|].
      destruct Hfound as [Hf|Hf]; [discriminate | now right].
  - split; [discriminate|]. split; [now split|].
    split; [discriminate | split; reflexivity].
Qed.

(** *** Stage names of a plan *)

Lemma od_set_keys {V} (k : string) (v : V) (d : odict V) :
  od_keys (od_set k v d)
  = if existsb (String.eqb k) (od_keys d) then od_keys d else od_keys d ++ [k].
Proof.
  induction d as [|[k' v'] d IH]; [reflexivity|].
  cbn [od_set od_keys map fst existsb].
  destruct (String.eqb_spec k k') as [->|Hne]; cbn [orb].
  - reflexivity.
  - cbn [map fst]. fold (od_keys (od_set k v d)). rewrite IH.
    fold (od_keys d). now destruct (existsb _ (od_keys d)).
Qed.

Lemma span_snd_head (p : ascii -> bool) (s : string) (c : ascii) (r : string) :
  snd (PyStr.span p s) = String c r -> p c = false.
Proof.
  induction s as [|a s IH]; cbn [PyStr.span]; [discriminate|].
  destruct (p a) eqn:Ha.
  - destruct (PyStr.span p s) as [x y]. cbn [snd] in *. exact IH.
  - cbn [snd]. intros E. injection E as <- _. exact Ha.
Qed.

Lemma strip_nonempty (c : ascii) (r : string) :
  PyStr.isspace c = false -> PyStr.strip (String c r) <> EmptyString.
Proof.
  intros Hc. unfold PyStr.strip, PyStr.lstrip. cbn [PyStr.lstrip_chars].
  rewrite Hc. cbn [PyStr.rstrip]. rewrite Hc.
  destruct (PyStr.rstrip r); discriminate.
Qed.

Lemma stage_match_nonempty (line g : string) :
  stage_match line = Some g -> PyStr.strip g <> EmptyString.
Proof.
  unfold stage_match.
  destruct (_ || _); [|discriminate].
  destruct (PyStr.span PyStr.isspace (drop_str 5 line)) as [ws tl].
  destruct ws as [|w ws]; [discriminate|].
  destruct tl as [|d [|c rest]]; try discriminate.
  destruct (_ && _); [|discriminate].
  destruct (snd (PyStr.span PyStr.isspace rest)) as [|a name] eqn:Hs;
    [discriminate|].
  intros E. injection E as <-.
  apply strip_nonempty. exact (span_snd_head _ _ _ _ Hs).
Qed.

Lemma header_name_nonempty (raw k : string) :
  header_name raw = Some k -> k <> EmptyString.
Proof.
  unfold header_name.
  destruct (stage_match (PyStr.strip raw)) as [g|] eqn:Hm; [|discriminate].
  intros E. injection E as <-. exact (stage_match_nonempty _ _ Hm).
Qed.

(** One line adds at most the name of the header it is. *)
Lemma stage_step_keys (sc : StageScan) (raw : string) :
  od_keys (save_stage (stage_step sc raw))
  = match header_name raw with
    | Some k =>
        if existsb (String.eqb k) (od_keys (save_stage sc))
        then od_keys (save_stage sc) else od_keys (save_stage sc) ++ [k]
    | None => od_keys (save_stage sc)
    end.
Proof.
  unfold stage_step, header_name.
  destruct (PyStr.strip raw) as [|a line] eqn:Hline.
  - reflexivity.
  - destruct (stage_match (String a line)) as [g|] eqn:Hm; cbn [option_map].
    + pose proof (stage_match_nonempty _ _ Hm) as Hne.
      destruct (PyStr.strip g) as [|c r] eqn:Hg; [contradiction|].
      unfold save_stage at 1. cbn [sc_current sc_stages sc_objectives].
      apply od_set_keys.
    + destruct (sc_current sc) as [[[|c r] info]|] eqn:Hcur; try reflexivity.
      destruct (stage_detail _ info (sc_objectives sc)) as [info' objs'].
      unfold save_stage. cbn [sc_current sc_stages sc_objectives].
      rewrite Hcur. rewrite !od_set_keys. reflexivity.
Qed.

Lemma scan_keys_from (lines : list string) (sc : StageScan) :
  od_keys (save_stage (fold_left stage_step lines sc))
  = od_keys (save_stage sc)
    ++ first_occurrences (od_keys (save_stage sc)) (omap header_name lines).
Proof.
  revert sc. induction lines as [|raw lines IH]; intros sc.
  - cbn. now rewrite app_nil_r.
  - cbn [fold_left]. rewrite IH, stage_step_keys.
    change (omap header_name (raw :: lines))
      with (match header_name raw with
            | Some k => k :: omap header_name lines
            | None => omap header_name lines
            end).
    destruct (header_name raw) as [k|]; [|reflexivity].
    cbn [first_occurrences].
    destruct (existsb _ _); [reflexivity|].
    now rewrite <- app_assoc.
Qed.

Lemma scan_keys (text : string) :
  od_keys (scan_stages text)
  = first_occurrences [] (omap header_name (PyStr.split newline text)).
Proof. unfold scan_stages. now rewrite scan_keys_from. Qed.

Lemma first_occurrences_in (l seen : list string) (x : string) :
  In x (first_occurrences seen l) <-> In x l /\ ~ In x seen.
Proof.
  revert seen. induction l as [|y l IH]; intros seen; cbn [first_occurrences].
  - cbn. tauto.
  - destruct (existsb (String.eqb y) seen) eqn:Hy.
    + rewrite IH. apply existsb_exists in Hy as [z [Hz He]].
      apply String.eqb_eq in He. subst z. cbn [In]. split.
      * tauto.
      * intros [[->|H] Hn]; [contradiction | tauto].
    + assert (Hn : ~ In y seen).
      { intros H. apply not_true_iff_false in Hy. apply Hy.
        apply existsb_exists. exists y. split; [exact H | apply String.eqb_refl]. }
      cbn [In]. rewrite IH, in_app_iff. cbn [In].
      destruct (String.eqb_spec y x) as [->|Hne]; [tauto|]. 
      split.
      * intros [E | [Hin Hs]]; [contradiction | tauto].
      * intros [[E | Hin] Hs]; [contradiction|]. right. split; [exact Hin|].
        intros [H | [E | []]]; [tauto | contradiction].
Qed.

Lemma first_occurrences_nodup (l seen : list string) :
  List.NoDup (first_occurrences seen l).
Proof.
  revert seen. induction l as [|y l IH]; intros seen; cbn [first_occurrences].
  - constructor.
  - destruct (existsb (String.eqb y) seen); [apply IH|].
    constructor; [|apply IH].
    rewrite first_occurrences_in, in_app_iff. cbn. tauto.
Qed.

Lemma create_default_stages_named (topic0 level : string) :
  ~ In EmptyString (od_keys (create_default_stages topic0 level)).
Proof.
  unfold create_default_stages.
  destruct (String.eqb level "beginner"); rewrite !od_set_keys;
    cbn [od_keys map existsb app];
    repeat match goal with
           | |- context [if ?b then _ else _] => destruct b
           end;
    cbn [In]; intros H;
    repeat (destruct H as [H | H]; [discriminate H|]); exact H.
Qed.


(** X11.  Whatever the collaborator answers, and also when the call fails,
    plan structuring leaves a plan with at least one stage, whose stage
    names are non-empty and pairwise different. *)
Theorem estructurador_plan_well_named (response : option string)
    (state : GraphState) :
  let plan := study_plan_structure (estructurador_plan response state) in
  plan <> []
  /\ List.NoDup (od_keys plan)
  /\ ~ In EmptyString (od_keys plan).
Proof.
  intros plan. subst plan.
  assert (Hdefault : let d := create_default_stages (topic state)
                                (user_level state) in
                     d <> [] /\ List.NoDup (od_keys d)
                     /\ ~ In EmptyString (od_keys d)).
  { cbv zeta. split; [|split].
    - intros E. pose proof (create_default_stages_size (topic state)
                              (user_level state)) as Hs.
      rewrite E in Hs. destruct (String.eqb _ _); discriminate.
    - apply create_default_stages_keys.
    - apply create_default_stages_named. }
  destruct response as [text|]; [|exact Hdefault].
  assert (Hnd : List.NoDup (od_keys (scan_stages text))).
  { rewrite scan_keys. apply first_occurrences_nodup. }
  assert (Hne : ~ In EmptyString (od_keys (scan_stages text))).
  { rewrite scan_keys. intros Hin.
    apply first_occurrences_in in Hin as [Hin _].
    apply list_elem_of_In, list_elem_of_omap in Hin as [raw [_ Hraw]].
    exact (header_name_nonempty _ _ Hraw eq_refl). }
  change (study_plan_structure (estructurador_plan (Some text) state))
    with (parse_stages_from_text text (topic state) (user_level state)).
  unfold parse_stages_from_text.
  destruct (scan_stages text) as [|kv d]; [exact Hdefault|].
  cbn [truthy_list]. split; [discriminate|]. now split.
Qed.

(** *** Fields read by the structured pass *)

Lemma year_search_from_year (s : string) (prev : option ascii) (y : string) :
  year_search_from prev s = Some y -> four_digit_year y = true.
Proof.
  revert prev. induction s as [|c r IH]; intros prev; cbn [year_search_from];
    [discriminate|].
  destruct (year_at prev (String c r)) eqn:Hy; [|apply IH].
  intros E. injection E as <-.
  destruct r as [|c2 [|c3 [|c4 rest]]]; try discriminate Hy.
  cbn [year_at] in Hy. cbn [PyStr.take four_digit_year].
  apply andb_true_iff in Hy as [Hy _].
  apply andb_true_iff in Hy as [Hy H4].
  apply andb_true_iff in Hy as [Hy H3].
  apply andb_true_iff in Hy as [_ Hy].
  now rewrite Hy, H3, H4.
Qed.

Lemma of_uint_nonneg (u : Decimal.uint) : (0 <= Z.of_uint u)%Z.
Proof. unfold Z.of_uint. apply N2Z.is_nonneg. Qed.

Lemma int_of_str_nonneg (s : string) (i : Z) :
  PyStr.int_of_str s = Some i -> (0 <= i)%Z.
Proof.
  unfold PyStr.int_of_str. destruct s as [|c r]; [discriminate|].
  destruct (NilEmpty.uint_of_string _) as [u|]; [|discriminate].
  cbn [option_map]. intros E. injection E as <-. apply of_uint_nonneg.
Qed.

Lemma float_of_str_nonneg (s : string) (q : Q) :
  PyStr.float_of_str s = Some q -> (0 <= q)%Q.
Proof.
  unfold PyStr.float_of_str.
  destruct (PyStr.span PyStr.isdecimal s) as [ip rest].
  destruct (PyStr.int_of_str ip) as [i|] eqn:Hi; [|discriminate].
  apply int_of_str_nonneg in Hi.
  assert (Hz : (0 <= inject_Z i)%Q).
  { unfold Qle, inject_Z. cbn. lia. }
  destruct rest as [|c fp]; [now intros [= <-]|].
  destruct (Ascii.eqb c "."); [|discriminate].
  destruct fp as [|d fp]; [now intros [= <-]|].
  destruct (NilEmpty.uint_of_string (String d fp)) as [u|]; [|discriminate].
  cbn [option_map]. intros E. injection E as <-.
  unfold Qle. cbn [Qnum Qden].
  pose proof (of_uint_nonneg u).
  assert (0 <= 10 ^ Z.of_nat (String.length (String d fp)))%Z
    by (apply Z.pow_nonneg; lia).
  nia.
Qed.

Lemma parse_rating_nonneg (t : string) : (0 <= parse_rating t)%Q.
Proof.
  unfold parse_rating. destruct (number_search t) as [g|]; [|apply Qle_refl].
  destruct (PyStr.float_of_str g) as [q|] eqn:Hq; cbn [default];
    [exact (float_of_str_nonneg _ _ Hq) | apply Qle_refl].
Qed.

Lemma parse_reviews_nonneg (t : string) : (0 <= parse_reviews t)%Z.
Proof.
  unfold parse_reviews. destruct (digits_search _) as [g|]; [|lia].
  destruct (PyStr.int_of_str g) as [i|] eqn:Hi; cbn [default];
    [exact (int_of_str_nonneg _ _ Hi) | lia].
Qed.

Lemma fields_ok_flush (books : list RawBook) (b : RawBook) :
  Forall fields_ok books -> (rb_truthy b = true -> fields_ok b) ->
  rb_truthy b = true -> Forall fields_ok (flush books b).
Proof.
  intros Hb Hc Ht. unfold flush. destruct (has_title b); [|exact Hb].
  apply Forall_app. split; [exact Hb|]. constructor; [now apply Hc | constructor].
Qed.

Lemma structured_step_fields (acc : list RawBook * RawBook) (raw : string) :
  Forall fields_ok (fst acc) ->
  (rb_truthy (snd acc) = true -> fields_ok (snd acc)) ->
  Forall fields_ok (fst (structured_step acc raw))
  /\ (rb_truthy (snd (structured_step acc raw)) = true ->
      fields_ok (snd (structured_step acc raw))).
Proof.
  destruct acc as [books cur]. cbn [fst snd]. intros Hb Hc.
  unfold structured_step.
  destruct (PyStr.startswith _ "Title:").
  { cbn [fst snd]. split.
    - destruct (rb_truthy cur) eqn:Ht; [|exact Hb].
      apply fields_ok_flush; [exact Hb | intros _; now apply Hc | exact Ht].
    - intros _. repeat split; intros ? E; discriminate E. }
  destruct (rb_truthy cur) eqn:Ht.
  2:{ rewrite !andb_false_r. cbn [fst snd].
      split; [exact Hb | intros E; rewrite Ht in E; discriminate E]. }
  specialize (Hc eq_refl). destruct Hc as (H1 & H2 & H3 & H4).
  rewrite !andb_true_r.
  repeat match goal with
         | |- context [if ?b then _ else _] =>
             destruct b; [cbn [fst snd]; split; [exact Hb | intros _] | ]
         end.
  - repeat split; assumption.
  - repeat split; try assumption.
    cbn [rb_year with_year]. intros y E. injection E as <-.
    unfold year_ok. destruct (year_search _) as [y|] eqn:Hy; [|exact I].
    exact (year_search_from_year _ _ _ Hy).
  - repeat split; try assumption.
    cbn [rb_rating with_rating]. intros q E. injection E as <-.
    apply parse_rating_nonneg.
  - repeat split; try assumption.
    cbn [rb_num_reviews with_num_reviews]. intros n E. injection E as <-.
    apply parse_reviews_nonneg.
  - repeat split; assumption.
  - destruct (String.eqb _ "---"); cbn [fst snd].
    + split; [|discriminate].
      apply fields_ok_flush; [exact Hb | | exact Ht]. intros _.
      repeat split; assumption.
    + split; [exact Hb|]. intros _. repeat split; assumption.
Qed.

Lemma structured_pass_fields (lines : list string) :
  Forall fields_ok (structured_pass lines).
Proof.
  unfold structured_pass.
  assert (H : forall acc,
             Forall fields_ok (fst acc) ->
             (rb_truthy (snd acc) = true -> fields_ok (snd acc)) ->
             let r := fold_left structured_step lines acc in
             Forall fields_ok (fst r)
             /\ (rb_truthy (snd r) = true -> fields_ok (snd r))).
  { induction lines as [|raw lines IH]; intros acc Hb Hc; cbn [fold_left].
    - now split.
    - destruct (structured_step_fields acc raw Hb Hc) as [Hb' Hc'].
      exact (IH _ Hb' Hc'). }
  destruct (H ([], empty_book)) as [Hb Hc];
    [constructor | discriminate|].
  destruct (fold_left structured_step lines ([], empty_book)) as [books cur].
  cbn [fst snd] in *.
  destruct (rb_truthy cur) eqn:Ht; [|exact Hb].
  apply fields_ok_flush; [exact Hb | intros _; now apply Hc | exact Ht].
Qed.


Lemma to_book_info_fields (raw : RawBook) (b : BookInfo) :
  to_book_info raw = Some b ->
  title b <> EmptyString
  /\ rb_title raw = Some (title b)
  /\ rating b = default 0%Q (rb_rating raw)
  /\ num_reviews b = default 1%Z (rb_num_reviews raw)
  /\ year b = default None (rb_year raw).
Proof.
  unfold to_book_info. destruct (rb_title raw) as [[|c r]|]; try discriminate.
  intros [= <-]. cbn. repeat split. discriminate.
Qed.

Lemma omap_shorter {A B} (f : A -> option B) (l : list A) :
  (length (omap f l) <= length l)%nat.
Proof.
  induction l as [|x l IH]; [cbn; lia|].
  change (omap f (x :: l))
    with (match f x with
          | Some y => y :: omap f l
          | None => omap f l
          end).
  destruct (f x); cbn [length]; lia.
Qed.

(** X13.  Book research on a selected stage replaces the candidates of that
    stage and of no other, and leaves the accepted books alone. A failed
    search stores the empty list. Every candidate stored has a non-empty
    title; and when the answer holds a block in the field-marker format,
    every candidate has a rating, a review count and a score that are not
    negative, and a year that is missing or four digits beginning with 19 or
    20. *)
Theorem investigador_libros_candidates
    (traditional_pass : list string -> list RawBook)
    (response : option string) (state : GraphState) (stage : string) :
  truthy_stage (stage_being_processed state) = Some stage ->
  let after := investigador_libros traditional_pass response state in
  exists candidates,
    book_candidates after !! stage = Some candidates
    /\ (response = None -> candidates = [])
    /\ (forall b, In b candidates -> title b <> EmptyString)
    /\ (forall text,
          response = Some text ->
          structured_pass (PyStr.split "010" text) <> [] ->
          (length candidates
           <= length (structured_pass (PyStr.split "010" text)))%nat
          /\ forall b, In b candidates ->
               (0 <= rating b)%Q /\ (0 <= num_reviews b)%Z
               /\ (0 <= score b)%R /\ year_ok (year b))
    /\ (forall other, other <> stage ->
          book_candidates after !! other = book_candidates state !! other)
    /\ books_by_stage after = books_by_stage state.
Proof.
  intros Hst after. subst after. unfold investigador_libros. rewrite Hst.
  cbn [book_candidates books_by_stage set_book_candidates
       set_book_search_iterations].
  eexists. split; [apply lookup_insert_eq|].
  split; [now intros ->|]. split; [|split; [|split]].
  - intros b Hin.
    apply list_elem_of_In, list_elem_of_omap in Hin as [raw [_ Hraw]].
    now apply to_book_info_fields in Hraw.
  - intros text -> Hne. cbn [search_books_for_topic]. split.
    + unfold parse_books_from_text.
      destruct (structured_pass (PyStr.split "010" text)) as [|b0 books];
        [contradiction|].
      change (Nat.eqb (length (b0 :: books)) 0) with false. cbv iota.
      etransitivity; [apply omap_shorter|]. now rewrite length_map.
    + intros b Hin.
      apply list_elem_of_In, list_elem_of_omap in Hin as [raw [Hraw Hb]].
      apply list_elem_of_In in Hraw.
      pose proof (to_book_info_score _ _ Hb) as Hscore.
      apply to_book_info_fields in Hb as (_ & _ & Hq & Hn & Hy).
      unfold parse_books_from_text in Hraw.
      pose proof (structured_pass_fields (PyStr.split "010" text)) as Hall.
      destruct (structured_pass (PyStr.split "010" text)) as [|b0 books];
        [contradiction|].
      cbn [length Nat.eqb] in Hraw.
      apply in_map_iff in Hraw as [raw0 [<- Hraw0]].
      rewrite List.Forall_forall in Hall. specialize (Hall raw0 Hraw0).
      destruct Hall as (H1 & H2 & H3 & H4).
      unfold with_defaults in *. rewrite H1 in *. cbn in Hq, Hn, Hy.
      assert (Hrating : (0 <= rating b)%Q).
      { rewrite Hq. destruct (rb_rating raw0) as [q|];
          [now apply H2 | apply Qle_refl]. }
      split; [exact Hrating|]. split; [|split].
      * rewrite Hn. destruct (rb_num_reviews raw0) as [n|];
          [now apply H3 | cbn; lia].
      * rewrite Hscore. now apply weighted_score_nonneg.
      * rewrite Hy. destruct (rb_year raw0) as [y|]; [now apply H4 | exact I].
  - intros other Hne. now apply lookup_insert_ne.
  - reflexivity.
Qed.

(** *** Gap messages and the search decision *)

Lemma lower_app (a b : string) :
  PyStr.lower (a ++ b) = (PyStr.lower a ++ PyStr.lower b)%string.
Proof.
  induction a as [|c a IH]; [reflexivity|].
  change (String c a ++ b)%string with (String c (a ++ b)%string).
  cbn [PyStr.lower]. rewrite IH. reflexivity.
Qed.

Lemma message_mentions_stage (pre stage suf : string) :
  stage_related stage (pre ++ stage ++ suf)%string = true.
Proof.
  unfold stage_related. apply orb_true_iff. left. apply contains_spec.
  exists (PyStr.lower pre), (PyStr.lower suf). now rewrite !lower_app.
Qed.

Lemma detect_gaps_related (stage : string) (books : list BookInfo) (g : string) :
  In g (detect_gaps stage books) -> stage_related stage g = true.
Proof.
  unfold detect_gaps. cbv zeta. rewrite !in_app_iff.
  intros [H | [H | H]].
  - destruct (_ <? _)%Z; [|destruct H]. destruct H as [<- | []].
    apply message_mentions_stage.
  - destruct (truthy_list _); [|destruct H]. destruct H as [<- | []].
    apply message_mentions_stage.
  - destruct (_ >? _)%Z; [|destruct H]. destruct H as [<- | []].
    apply message_mentions_stage.
Qed.

(** X14.  Gap detection and the search decision that follows it: when the
    detector finds any problem with the books of the selected stage and
    fewer than two searches were made for it, the decision sends the
    workflow back to book research, as a retry when the stage has fewer than
    two books and as a specific search otherwise; every message the detector
    writes names the stage, which is what the decision looks for. *)
Theorem detector_gaps_forces_search (state : GraphState) (stage : string) :
  stage_being_processed state = Some stage ->
  stage <> EmptyString ->
  let books := default [] (books_by_stage state !! stage) in
  detect_gaps stage books <> [] ->
  (book_search_iterations state < 2)%Z ->
  let d := decision_busqueda_libros (detector_gaps state) in
  (forall g, In g (detect_gaps stage books) -> stage_related stage g = true)
  /\ (few_books books -> d = reintentar_busqueda)
  /\ (~ few_books books -> d = busqueda_especifica).
Proof.
  intros Hst Hne books Hgaps Hn d. subst d.
  split; [apply detect_gaps_related|].
  assert (Ht : truthy_stage (stage_being_processed state) = Some stage).
  { rewrite Hst. destruct stage; [contradiction | reflexivity]. }
  unfold detector_gaps. rewrite Ht. fold books.
  destruct (detect_gaps stage books) as [|g new] eqn:Hd; [contradiction|].
  cbn [truthy_list]. unfold decision_busqueda_libros.
  cbn [stage_being_processed set_knowledge_gaps book_search_iterations
       books_by_stage knowledge_gaps].
  rewrite Ht. fold books.
  unfold MAX_BOOK_SEARCHES_PER_STAGE, MIN_BOOKS_PER_STAGE, few_books.
  destruct (Z.geb_spec (book_search_iterations state) 3) as [|_]; [lia|].
  destruct (Z.ltb_spec (Z.of_nat (length books)) 2) as [Hlt | Hge].
  - split; [reflexivity | lia].
  - split; [lia|]. intros _.
    assert (Hrel : truthy_list
                     (List.filter (stage_related stage)
                        (knowledge_gaps state ++ g :: new)) = true).
    { apply truthy_filter. exists g. split.
      - apply in_app_iff. right. now left.
      - apply (detect_gaps_related stage books). rewrite Hd. now left. }
    rewrite Hrel.
    destruct (Z.ltb_spec (book_search_iterations state) (3 - 1)) as [|];
      [reflexivity | lia].
Qed.

(** *** Global validation and the decision after it *)




(** *** Reading the quality score *)








Section Numeral.

(** A text that begins with the digit [d0]. *)
Variables (d0 : ascii) (tail : string).
Hypothesis d0_digit : PyStr.isdecimal d0 = true.



End Numeral.




(** *** Shelves of a session *)

Lemma shelves_ok_ext (s1 s2 : GraphState) :
  quality_threshold s2 = quality_threshold s1 ->
  stage_being_processed s2 = stage_being_processed s1 ->
  book_candidates s2 = book_candidates s1 ->
  books_by_stage s2 = books_by_stage s1 ->
  study_plan_structure s2 = study_plan_structure s1 ->
  shelves_ok s1 -> shelves_ok s2.
Proof.
  unfold shelves_ok. intros -> -> -> -> ->. exact (fun H => H).
Qed.

Lemma quality_filter_rated (threshold : Q) (candidates : list BookInfo)
    (b : BookInfo) :
  In b (quality_filter threshold candidates) ->
  In b candidates /\ (threshold - (3 # 10) <= rating b)%Q.
Proof.
  rewrite quality_filter_unfold.
  destruct (_ && _); rewrite survivors_spec; intros [Hin Hr];
    (split; [exact Hin|]); [exact Hr|].
  eapply Qle_trans; [|exact Hr].
  rewrite <- (Qplus_0_r threshold) at 2. unfold Qminus.
  apply Qplus_le_r. discriminate.
Qed.

Lemma to_book_info_good (raw : RawBook) (b : BookInfo) :
  to_book_info raw = Some b -> good_candidate b.
Proof.
  intros H. split; [|exact (to_book_info_score _ _ H)].
  unfold to_book_info in H. destruct (rb_title raw) as [[|c r]|];
    try discriminate H.
  injection H as <-. discriminate.
Qed.

Lemma investigador_libros_shelves
    (traditional_pass : list string -> list RawBook)
    (response : option string) (state : GraphState) :
  shelves_ok state ->
  shelves_ok (investigador_libros traditional_pass response state).
Proof.
  intros Hok. unfold investigador_libros.
  destruct (truthy_stage (stage_being_processed state)) as [stage|] eqn:Hst;
    [|exact Hok].
  assert (Hsel : stage_being_processed state = Some stage).
  { destruct (stage_being_processed state) as [[|c r]|]; try discriminate Hst.
    exact Hst. }
  destruct Hok as (Hq & Hs & Hc & Hb).
  unfold shelves_ok.
  cbn [quality_threshold stage_being_processed book_candidates books_by_stage
       study_plan_structure set_book_candidates set_book_search_iterations].
  split; [exact Hq|]. split; [exact Hs|]. split; [|exact Hb].
  intros k cs. destruct (decide (stage = k)) as [<- | Hne].
  - rewrite lookup_insert_eq. intros [= <-]. split; [now apply Hs|].
    apply List.Forall_forall. intros b Hin.
    apply list_elem_of_In, list_elem_of_omap in Hin as [raw [_ Hraw]].
    exact (to_book_info_good _ _ Hraw).
  - rewrite lookup_insert_ne by exact Hne. apply Hc.
Qed.

Lemma validador_calidad_shelves (state : GraphState) :
  shelves_ok state -> shelves_ok (validador_calidad state).
Proof.
  intros Hok. unfold validador_calidad.
  destruct (truthy_stage (stage_being_processed state)) as [stage|] eqn:Hst;
    [|exact Hok].
  assert (Hsel : stage_being_processed state = Some stage).
  { destruct (stage_being_processed state) as [[|c r]|]; try discriminate Hst.
    exact Hst. }
  destruct Hok as (Hq & Hs & Hc & Hb).
  unfold shelves_ok.
  cbn [quality_threshold stage_being_processed book_candidates books_by_stage
       study_plan_structure set_books_by_stage].
  split; [exact Hq|]. split; [exact Hs|]. split; [exact Hc|].
  intros k books. destruct (decide (stage = k)) as [<- | Hne].
  - rewrite lookup_insert_eq. intros [= <-]. split; [now apply Hs|].
    split; [apply length_firstn_le || (rewrite length_firstn; lia)|].
    apply List.Forall_forall. intros b Hin. apply in_firstn in Hin.
    eapply Permutation_in in Hin; [|apply sort_by_score_perm].
    apply quality_filter_rated in Hin as [Hin Hr].
    assert (Hgood : good_candidate b).
    { destruct (book_candidates state !! stage) as [cs|] eqn:Hcs;
        [|destruct Hin].
      destruct (Hc _ _ Hcs) as [_ Hall].
      rewrite List.Forall_forall in Hall. now apply Hall. }
    split; [exact Hgood|]. rewrite Hq in Hr.
    eapply Qle_trans; [|exact Hr]. discriminate.
  - rewrite lookup_insert_ne by exact Hne. apply Hb.
Qed.

Lemma selector_etapa_shelves (state : GraphState) :
  shelves_ok state -> shelves_ok (selector_etapa state).
Proof.
  intros (Hq & Hs & Hc & Hb). unfold selector_etapa.
  destruct (List.find _ _) as [next|] eqn:Hfind.
  - apply find_some in Hfind as [Hin _].
    destruct next as [|c r]; cbn [truthy_stage].
    + unfold shelves_ok. cbn.
      split; [exact Hq|]. split; [discriminate | split; assumption].
    + destruct (negb _); unfold shelves_ok; cbn;
        (split; [exact Hq|]); (split; [|split; assumption]);
        intros s [= <-]; exact Hin.
  - cbn [truthy_stage]. unfold shelves_ok. cbn.
    split; [exact Hq|]. split; [discriminate | split; assumption].
Qed.

Lemma replanificador_shelves (response : option string) (state : GraphState) :
  shelves_ok state -> shelves_ok (replanificador response state).
Proof.
  intros Hok. destruct response as [text|]; [|exact Hok].
  destruct Hok as (Hq & Hs & Hc & Hb). unfold shelves_ok.
  split; [exact Hq|]. split; [exact Hs|]. split; [exact Hc|].
  intros k books. rewrite replanificador_books_lookup.
  destruct (_ && _); [discriminate|].
  change (study_plan_structure (replanificador (Some text) state))
    with (study_plan_structure state).
  apply Hb.
Qed.

Section Shelves.

Variable traditional_pass : list string -> list RawBook.
Variable render_document : GraphState -> string.
Variable disclaimer : string.

Local Abbreviation run := (run_node traditional_pass render_document disclaimer).
Local Abbreviation reach := (reachable traditional_pass render_document disclaimer).

Lemma run_shelves (n : Node) (response : option string) (state : GraphState) :
  match n with
  | n_analizador_tema | n_evaluador_nivel | n_estructurador_plan => False
  | _ => True
  end ->
  shelves_ok state -> shelves_ok (run n response state).
Proof.
  destruct n; try contradiction; intros _ Hok; cbn [run_node].
  - now apply selector_etapa_shelves.
  - now apply replanificador_shelves.
  - now apply investigador_libros_shelves.
  - now apply validador_calidad_shelves.
  - unfold detector_gaps. node_cases; exact Hok.
  - exact Hok.
  - unfold validador_global. destruct response; exact Hok.
  - exact Hok.
  - exact Hok.
Qed.

Lemma route_shelves (n : Node) (state : GraphState) :
  shelves_ok state -> shelves_ok (fst (route n state)).
Proof.
  destruct n; cbn [route fst]; try exact (fun H => H).
  unfold decision_cobertura_etapas. destruct (truthy_list _); exact (fun H => H).
Qed.

Lemma session_shelves_invariant (n : Node) (state : GraphState) :
  reach n state -> session_shelves n state.
Proof.
  induction 1 as [|n n' response state state' Hreach IH Hstep].
  - repeat split.
  - unfold step in Hstep.
    assert (Hstate : state' = fst (route n (run n response state)))
      by now rewrite Hstep.
    destruct n; cbn [route run_node] in Hstep.
    + injection Hstep as <- <-. cbn [session_shelves] in *.
      unfold analizador_tema. destruct response; exact IH.
    + injection Hstep as <- <-. cbn [session_shelves] in *.
      unfold evaluador_nivel. node_cases; exact IH.
    + injection Hstep as <- <-. cbn [session_shelves] in *.
      destruct IH as (Hq & Hs & Hc & Hb). unfold shelves_ok.
      assert (E : forall _ : unit,
                 quality_threshold (estructurador_plan response state)
                 = quality_threshold state
                 /\ stage_being_processed (estructurador_plan response state)
                    = stage_being_processed state
                 /\ book_candidates (estructurador_plan response state)
                    = book_candidates state
                 /\ books_by_stage (estructurador_plan response state)
                    = books_by_stage state).
      { intros _. destruct response; repeat split. }
      destruct (E tt) as (-> & -> & -> & ->).
      rewrite Hs, Hc, Hb. split; [exact Hq|].
      split; [discriminate|].
      split; intros k v; rewrite lookup_empty; discriminate.
    + assert (Hok : shelves_ok state')
        by (rewrite Hstate; apply route_shelves, run_shelves;
            [exact I | exact IH]).
      injection Hstep as _ <-. exact Hok.
    + assert (Hok : shelves_ok state')
        by (rewrite Hstate; apply route_shelves, run_shelves;
            [exact I | exact IH]).
      injection Hstep as _ <-. exact Hok.
    + assert (Hok : shelves_ok state')
        by (rewrite Hstate; apply route_shelves, run_shelves;
            [exact I | exact IH]).
      injection Hstep as _ <-. exact Hok.
    + assert (Hok : shelves_ok state')
        by (rewrite Hstate; apply route_shelves, run_shelves;
            [exact I | exact IH]).
      injection Hstep as _ <-. exact Hok.
    + assert (Hok : shelves_ok state')
        by (rewrite Hstate; apply route_shelves, run_shelves;
            [exact I | exact IH]).
      destruct (decision_busqueda_libros _); injection Hstep as _ <-; exact Hok.
    + assert (Hok : shelves_ok state')
        by (rewrite Hstate; apply route_shelves, run_shelves;
            [exact I | exact IH]).
      destruct (decision_cobertura_etapas _) as [s d].
      destruct d; injection Hstep as _ <-; exact Hok.
    + assert (Hok : shelves_ok state')
        by (rewrite Hstate; apply route_shelves, run_shelves;
            [exact I | exact IH]).
      destruct (decision_validacion _); injection Hstep as _ <-; exact Hok.
    + discriminate Hstep.
    + discriminate Hstep.
Qed.

(** X17.  In a session, whatever the collaborator answers: books are only
    ever stored for stages of the plan, at most five per stage; every stored
    book has a non-empty title, a rating of at least 3.7 (the threshold 4.0
    less the relaxation 0.3) and the score [rating * ln (max num_reviews 1 +
    1)], which is positive or zero; and the stage being processed is a stage
    of the plan. *)
Theorem session_books_well_chosen (n : Node) (state : GraphState) :
  reach n state ->
  (forall stage books,
      books_by_stage state !! stage = Some books ->
      In stage (od_keys (study_plan_structure state))
      /\ (length books <= 5)%nat
      /\ forall b, In b books ->
           title b <> EmptyString
           /\ (37 # 10 <= rating b)%Q
           /\ score b = weighted_score (rating b) (num_reviews b)
           /\ (0 <= score b)%R)
  /\ (forall stage, stage_being_processed state = Some stage ->
        In stage (od_keys (study_plan_structure state))).
Proof.
  intros Hreach. apply session_shelves_invariant in Hreach.
  assert (Hcases : empty_shelves state \/ shelves_ok state).
  { destruct n; cbn in Hreach; auto. }
  destruct Hcases as [(Hq & Hs & Hc & Hb) | (Hq & Hs & Hc & Hb)].
  - rewrite Hb, Hs. split; [|discriminate].
    intros stage books. rewrite lookup_empty. discriminate.
  - split; [|exact Hs]. intros stage books Hl.
    destruct (Hb _ _ Hl) as (Hin & Hlen & Hall).
    split; [exact Hin|]. split; [exact Hlen|]. intros b Hb'.
    rewrite List.Forall_forall in Hall.
    destruct (Hall b Hb') as [[Ht Hsc] Hr].
    repeat split; try assumption.
    rewrite Hsc. apply weighted_score_nonneg.
    eapply Qle_trans; [|exact Hr]. discriminate.
Qed.

End Shelves.

Lemma two_blocks_candidates :
  book_candidates
    (investigador_libros (fun _ => []) two_blocks_answer one_stage_session)
    !! "Basics"%string
  = Some [clean_code_book; clean_code_book].
Proof. reflexivity. Qed.

Lemma sort_by_score_twice (b : BookInfo) : sort_by_score [b; b] = [b; b].
Proof.
  unfold sort_by_score. cbn [fold_right insert_by_score].
  destruct (Rlt_dec (score b) (score b)) as [H|_]; [|reflexivity].
  now apply Rlt_irrefl in H.
Qed.

Lemma two_blocks_accepted :
  validador_calidad
    (investigador_libros (fun _ => []) two_blocks_answer one_stage_session)
  = set_books_by_stage
      (<["Basics"%string := [clean_code_book; clean_code_book]]> ∅)
      (investigador_libros (fun _ => []) two_blocks_answer one_stage_session).
Proof.
  unfold validador_calidad.
  change (truthy_stage
            (stage_being_processed
               (investigador_libros (fun _ => []) two_blocks_answer
                  one_stage_session)))
    with (Some "Basics"%string).
  cbv beta iota zeta. rewrite two_blocks_candidates. cbn [default].
  change (quality_filter _ _) with [clean_code_book; clean_code_book].
  rewrite sort_by_score_twice. reflexivity.
Qed.

Lemma covered_session_reached :
  reachable (fun _ => []) (fun _ => EmptyString) EmptyString
    n_validador_global covered_session.
Proof.
  pose (tp := fun _ : list string => @nil RawBook).
  pose (rd := fun _ : GraphState => EmptyString).
  assert (H1 : reachable tp rd EmptyString n_evaluador_nivel
                 (analizador_tema None session_start)).
  { eapply reach_step with (response := None);
      [apply reach_start | reflexivity]. }
  assert (H2 : reachable tp rd EmptyString n_estructurador_plan
                 (evaluador_nivel (analizador_tema None session_start))).
  { eapply reach_step with (response := None); [exact H1 | reflexivity]. }
  assert (H3 : reachable tp rd EmptyString n_selector_etapa
                 (estructurador_plan (Some "Stage 1: Basics"%string)
                    (evaluador_nivel (analizador_tema None session_start)))).
  { eapply reach_step with (response := Some "Stage 1: Basics"%string);
      [exact H2 | reflexivity]. }
  assert (H4 : reachable tp rd EmptyString n_investigador_libros
                 one_stage_session).
  { eapply reach_step with (response := None); [exact H3 | reflexivity]. }
  assert (H5 : reachable tp rd EmptyString n_validador_calidad
                 (investigador_libros tp two_blocks_answer one_stage_session)).
  { eapply reach_step with (response := two_blocks_answer);
      [exact H4 | reflexivity]. }
  assert (H6 : reachable tp rd EmptyString n_detector_gaps
                 (validador_calidad
                    (investigador_libros tp two_blocks_answer
                       one_stage_session))).
  { eapply reach_step with (response := None); [exact H5 | reflexivity]. }
  assert (H7 : reachable tp rd EmptyString n_decision_cobertura
                 (detector_gaps
                    (validador_calidad
                       (investigador_libros tp two_blocks_answer
                          one_stage_session)))).
  { eapply reach_step with (response := None); [exact H6|].
    unfold step, run_node, route. subst tp.
    rewrite two_blocks_accepted. reflexivity. }
  eapply reach_step with (response := None); [exact H7|].
  unfold step, run_node, route, covered_session. subst tp.
  rewrite two_blocks_accepted. reflexivity.
Qed.

(** ** Instances *)

Lemma forced_output_unreachable_witness :
  reachable (fun _ => []) (fun _ => EmptyString) EmptyString
    n_validador_global covered_session
  /\ n_validador_global <> n_salida_forzada
  /\ (0 <= validation_iterations covered_session <= 2)%Z
  /\ (0 <= plan_refinement_iterations covered_session <= 2)%Z
  /\ (n_validador_global = n_replanificador ->
      validation_iterations covered_session = 1%Z
      /\ plan_refinement_iterations covered_session = 1%Z).
Proof.
  split; [exact covered_session_reached|].
  exact (forced_output_unreachable _ _ _ _ _ covered_session_reached).
Defined.

Lemma validation_sees_covered_plan_witness :
  reachable (fun _ => []) (fun _ => EmptyString) EmptyString
    n_validador_global covered_session
  /\ (n_validador_global = n_validador_global
      \/ n_validador_global = n_replanificador)
  /\ ~ has_stage_below_minimum covered_session
  /\ (forall response,
        stages_below_minimum (validador_global response covered_session) = [])
  /\ (forall response,
        books_by_stage (replanificador response covered_session)
        = books_by_stage covered_session).
Proof.
  split; [exact covered_session_reached|].
  split; [now left|].
  exact (validation_sees_covered_plan _ _ _ _ _ covered_session_reached
           (or_introl eq_refl)).
Defined.

Lemma validador_calidad_keeps_best_witness :
  truthy_stage (stage_being_processed relaxing_candidates) = Some "A"%string
  /\ exists kept left_out,
       books_by_stage (validador_calidad relaxing_candidates) !! "A"%string
       = Some kept
       /\ (length kept <= 5)%nat
       /\ length kept
          = Nat.min 5
              (length
                 (quality_filter (quality_threshold relaxing_candidates)
                    (default []
                       (book_candidates relaxing_candidates !! "A"%string))))
       /\ Sorted score_ge kept
       /\ Permutation (kept ++ left_out)
            (quality_filter (quality_threshold relaxing_candidates)
               (default []
                  (book_candidates relaxing_candidates !! "A"%string)))
       /\ (forall b c, In b kept -> In c left_out -> (score c <= score b)%R)
       /\ (forall other, other <> "A"%string ->
             books_by_stage (validador_calidad relaxing_candidates) !! other
             = books_by_stage relaxing_candidates !! other).
Proof.
  split; [reflexivity|].
  exact (validador_calidad_keeps_best relaxing_candidates "A" eq_refl).
Defined.

Lemma selector_etapa_first_uncovered_witness :
  ~ In EmptyString (od_keys (study_plan_structure two_stage_plan))
  /\ (forall next,
        stage_being_processed (selector_etapa two_stage_plan) = Some next ->
        exists before rest,
          od_keys (study_plan_structure two_stage_plan)
          = before ++ next :: rest
          /\ (num_books (books_by_stage two_stage_plan) next < 2)%Z
          /\ forall s, In s before ->
               (2 <= num_books (books_by_stage two_stage_plan) s)%Z)
  /\ (stage_being_processed (selector_etapa two_stage_plan) = None
      <-> ~ has_stage_below_minimum two_stage_plan)
  /\ (stage_being_processed (selector_etapa two_stage_plan) = None ->
      all_stages_covered (selector_etapa two_stage_plan) = true)
  /\ study_plan_structure (selector_etapa two_stage_plan)
     = study_plan_structure two_stage_plan
  /\ books_by_stage (selector_etapa two_stage_plan)
     = books_by_stage two_stage_plan.
Proof.
  assert (H : ~ In EmptyString (od_keys (study_plan_structure two_stage_plan))).
  { cbn. intros [H | [H | []]]; discriminate H. }
  split; [exact H|].
  exact (selector_etapa_first_uncovered two_stage_plan H).
Defined.

Lemma book_search_stops_after_three_witness :
  truthy_stage (stage_being_processed searching_stage_A) = Some "A"%string
  /\ (0 <= book_search_iterations searching_stage_A)%Z
  /\ decision_busqueda_libros
       (search_round (fun _ => []) None
          (search_round (fun _ => []) clean_code_answer
             (search_round (fun _ => []) None searching_stage_A)))
     = aceptar_libros_actuales.
Proof.
  assert (H : (0 <= book_search_iterations searching_stage_A)%Z)
    by (cbn; lia).
  split; [reflexivity|]. split; [exact H|].
  exact (book_search_stops_after_three (fun _ => []) None clean_code_answer
           None searching_stage_A "A" eq_refl H).
Defined.


Lemma investigador_libros_candidates_witness :
  truthy_stage (stage_being_processed searching_stage_A) = Some "A"%string
  /\ exists candidates,
       book_candidates
         (investigador_libros (fun _ => []) clean_code_answer
            searching_stage_A) !! "A"%string = Some candidates
       /\ (clean_code_answer = None -> candidates = [])
       /\ (forall b, In b candidates -> title b <> EmptyString)
       /\ (forall text,
             clean_code_answer = Some text ->
             structured_pass (PyStr.split "010" text) <> [] ->
             (length candidates
              <= length (structured_pass (PyStr.split "010" text)))%nat
             /\ forall b, In b candidates ->
                  (0 <= rating b)%Q /\ (0 <= num_reviews b)%Z
                  /\ (0 <= score b)%R /\ year_ok (year b))
       /\ (forall other, other <> "A"%string ->
             book_candidates
               (investigador_libros (fun _ => []) clean_code_answer
                  searching_stage_A) !! other
             = book_candidates searching_stage_A !! other)
       /\ books_by_stage
            (investigador_libros (fun _ => []) clean_code_answer
               searching_stage_A)
          = books_by_stage searching_stage_A.
Proof.
  split; [reflexivity|].
  exact (investigador_libros_candidates (fun _ => []) clean_code_answer
           searching_stage_A "A" eq_refl).
Defined.

Lemma detector_gaps_forces_search_witness :
  stage_being_processed thin_stage = Some "B"%string
  /\ "B"%string <> EmptyString
  /\ detect_gaps "B" (default [] (books_by_stage thin_stage !! "B"%string)) <> []
  /\ (book_search_iterations thin_stage < 2)%Z
  /\ (forall g,
        In g (detect_gaps "B"
                (default [] (books_by_stage thin_stage !! "B"%string))) ->
        stage_related "B" g = true)
  /\ (few_books (default [] (books_by_stage thin_stage !! "B"%string)) ->
      decision_busqueda_libros (detector_gaps thin_stage) = reintentar_busqueda)
  /\ (~ few_books (default [] (books_by_stage thin_stage !! "B"%string)) ->
      decision_busqueda_libros (detector_gaps thin_stage) = busqueda_especifica).
Proof.
  assert (H1 : "B"%string <> EmptyString) by discriminate.
  assert (H2 : detect_gaps "B"
                 (default [] (books_by_stage thin_stage !! "B"%string)) <> []).
  { assert (E : default [] (books_by_stage thin_stage !! "B"%string)
                = [sample_book "B1" (41 # 10) 80]) by reflexivity.
    rewrite E. discriminate. }
  assert (H3 : (book_search_iterations thin_stage < 2)%Z) by (cbn; lia).
  split; [reflexivity|]. split; [exact H1|]. split; [exact H2|].
  split; [exact H3|].
  exact (detector_gaps_forces_search thin_stage "B" eq_refl H1 H2 H3).
Defined.


Lemma session_books_well_chosen_witness :
  reachable (fun _ => []) (fun _ => EmptyString) EmptyString
    n_validador_global covered_session
  /\ (forall stage books,
        books_by_stage covered_session !! stage = Some books ->
        In stage (od_keys (study_plan_structure covered_session))
        /\ (length books <= 5)%nat
        /\ forall b, In b books ->
             title b <> EmptyString
             /\ (37 # 10 <= rating b)%Q
             /\ score b = weighted_score (rating b) (num_reviews b)
             /\ (0 <= score b)%R)
  /\ (forall stage, stage_being_processed covered_session = Some stage ->
        In stage (od_keys (study_plan_structure covered_session))).
Proof.
  split; [exact covered_session_reached|].
  exact (session_books_well_chosen _ _ _ _ _ covered_session_reached).
Defined.

(** *** The final output *)

Section Output.

Variable traditional_pass : list string -> list RawBook.
Variable render_document : GraphState -> string.
Variable disclaimer : string.

Local Abbreviation run := (run_node traditional_pass render_document disclaimer).
Local Abbreviation step' := (step traditional_pass render_document disclaimer).
Local Abbreviation reach := (reachable traditional_pass render_document disclaimer).

Lemma run_final_output (n : Node) (response : option string)
    (state : GraphState) :
  n <> n_formateador_salida -> n <> n_salida_forzada ->
  final_output (fst (step' n response state)) = final_output state.
Proof.
  intros H1 H2. unfold step.
  destruct n; try congruence; cbn [run_node route fst];
    try (unfold decision_cobertura_etapas;
         destruct (truthy_list _); reflexivity);
    unfold analizador_tema, evaluador_nivel, estructurador_plan,
      selector_etapa, replanificador, investigador_libros, validador_calidad,
      detector_gaps, validador_global;
    node_cases; reflexivity.
Qed.

(** X18.  The final output is written last: whenever a node is about to run
    in a session no output has been written yet, so [should_continue_or_end]
    would answer "continue"; and the run ends after a node exactly when that
    node is one of the two output nodes. *)
Theorem output_written_last (n : Node) (state : GraphState) :
  reach n state ->
  final_output state = EmptyString
  /\ should_continue_or_end state = false
  /\ (forall response,
        snd (step' n response state) = None
        <-> n = n_formateador_salida \/ n = n_salida_forzada).
Proof.
  intros Hreach.
  assert (Hout : final_output state = EmptyString).
  { induction Hreach as [|n n' response state state' Hreach IH Hstep];
      [reflexivity|].
    assert (Hn : n <> n_formateador_salida /\ n <> n_salida_forzada).
    { split; intros ->; discriminate Hstep. }
    destruct Hn as [H1 H2].
    pose proof (run_final_output n response state H1 H2) as E.
    rewrite Hstep in E. cbn [fst] in E. now rewrite E. }
  split; [exact Hout|]. split.
  - unfold should_continue_or_end. now rewrite Hout.
  - intros response. unfold step. split.
    + destruct n; cbn [route run_node snd]; try discriminate; auto.
      * destruct (decision_busqueda_libros _); discriminate.
      * destruct (decision_cobertura_etapas _) as [s d].
        destruct d; discriminate.
      * destruct (decision_validacion _); discriminate.
    + intros [-> | ->]; reflexivity.
Qed.

End Output.

Lemma output_written_last_witness :
  reachable (fun _ => []) (fun _ => EmptyString) EmptyString
    n_validador_global covered_session
  /\ final_output covered_session = EmptyString
  /\ should_continue_or_end covered_session = false
  /\ (forall response,
        snd (step (fun _ => []) (fun _ => EmptyString) EmptyString
               n_validador_global response covered_session) = None
        <-> n_validador_global = n_formateador_salida
            \/ n_validador_global = n_salida_forzada).
Proof.
  split; [exact covered_session_reached|].
  exact (output_written_last _ _ _ _ _ covered_session_reached).
Defined.
